(** * scaleArt: the dimension store and its request handlers

    A shallow embedding of [scaleArt.py].  The program keeps a list of
    "dimension" records in one JSON file and offers load/mutate/save
    operations on it, plus a handful of Flask request handlers.

    Python values are embedded as the inductive [pyval] (the values the
    [json] module can read and write).  A Python [str] is a Rocq [string]
    holding its UTF-8 bytes.  A Python [float] is a binary64 primitive
    float.  A [dict] is an association list in insertion order.  An
    exception is a value of [exn], and a computation that may raise
    returns a [result].

    The outside world is the file [saved_dimensions.json].  Its content
    is represented by what [json.load] makes of it: a document (a
    [pyval]), text the parser rejects with [JSONDecodeError], or content
    on which [json.load] fails in another way (bytes that are no text in
    the file's encoding, nesting beyond the recursion limit, an integer
    literal beyond the digit limit).  [json.dump] writes the document it
    is given; a write that fails half way (an I/O error, a value the
    encoder refuses) is not modelled.  A counter records every write, so
    that "nothing was written" can be told from "the same content was
    written again".

    Three string built-ins are parameters of the development: [float]
    on a string, [str.strip] and [str.lower].  Every theorem holds for
    whatever they do; [decimal_float_of_str], [ascii_strip] and
    [ascii_lower] are instances for the concrete runs at the end.

    A [set] is kept as a duplicate-free list and [sorted] inserts one
    element after the other by [<].  Where [<] is a total order on the
    elements (strings; numbers other than NaN) there is one sorted list
    and both sorts return it; where [<] is undefined (a string against a
    number) both raise [TypeError]. *)

From Stdlib Require Import ZArith Floats Ascii DecimalString Sorted Permutation.
From stdpp Require Import base option list sets strings sorting.

Set Warnings "-inexact-float,-register-all".
Set Default Proof Using "Type".
Local Open Scope Z_scope.

(** ** Python values *)

Inductive pyval : Type :=
  | PNone
  | PBool (b : bool)
  | PInt (z : Z)
  | PFloat (f : float)
  | PStr (s : string)
  | PList (items : list pyval)
  | PDict (entries : list (string * pyval)).

(** ** Exceptions and the two monads *)

Inductive exn : Type :=
  | KeyError
  | IndexError
  | TypeError
  | ValueError
  | OverflowError
  | AttributeError
  | FileNotFoundError
  | BadRequestKeyError
  | UnicodeDecodeError
  | RecursionError.

Inductive result (A : Type) : Type :=
  | Ok (a : A)
  | Raise (e : exn).
Arguments Ok {A} a.
Arguments Raise {A} e.

Definition rbind {A B} (m : result A) (k : A -> result B) : result B :=
  match m with
  | Ok a => k a
  | Raise e => Raise e
  end.

Notation "'let*' x ':=' m 'in' k" := (rbind m (fun x => k))
  (at level 10, x name, m at level 100, k at level 200).

(** [try: body except (ValueError, TypeError): handler] *)
Definition except_value_type {A} (body handler : result A) : result A :=
  match body with
  | Raise ValueError | Raise TypeError => handler
  | other => other
  end.

Fixpoint mapM {A B} (f : A -> result B) (l : list A) : result (list B) :=
  match l with
  | [] => Ok []
  | x :: l' => let* y := f x in let* ys := mapM f l' in Ok (y :: ys)
  end.

Fixpoint foldM {A S} (f : S -> A -> result S) (s : S) (l : list A) : result S :=
  match l with
  | [] => Ok s
  | x :: l' => let* s' := f s x in foldM f s' l'
  end.

(** The ways [json.load] fails on a file other than by a syntax error of
    the JSON text. *)
Inductive load_failure : Type :=
  | Undecodable   (* bytes that are no text in the file's encoding *)
  | TooDeep       (* arrays or objects nested beyond the recursion limit *)
  | IntTooLong.   (* an integer literal beyond the digit limit *)

(** What [json.load] raises for each. *)
Definition load_error (why : load_failure) : exn :=
  match why with
  | Undecodable => UnicodeDecodeError
  | TooDeep => RecursionError
  | IntTooLong => ValueError
  end.

(** The content of the file: text with a JSON syntax error, content that
    [json.load] fails on in another way, or a JSON document. *)
Inductive file_content : Type :=
  | Malformed (raw : string)
  | Unreadable (raw : string) (why : load_failure)
  | Document (data : pyval).

Record world : Type := World {
  file : option file_content;
  writes : nat
}.

Definition M (A : Type) : Type := world -> result A * world.

Definition ret {A} (a : A) : M A := fun w => (Ok a, w).
Definition liftR {A} (r : result A) : M A := fun w => (r, w).
Definition bind {A B} (m : M A) (k : A -> M B) : M B :=
  fun w =>
    match m w with
    | (Ok a, w') => k a w'
    | (Raise e, w') => (Raise e, w')
    end.

Notation "'let!' x ':=' m 'in' k" := (bind m (fun x => k))
  (at level 10, x name, m at level 100, k at level 200).

(** [os.path.exists(DIMENSIONS_FILE)] *)
Definition path_exists : M bool :=
  fun w => (Ok (bool_decide (is_Some (file w))), w).

(** [json.load(f)] on the opened file; [None] stands for [JSONDecodeError],
    the one failure [load_dimensions] catches. *)
Definition json_load : M (option pyval) :=
  fun w =>
    match file w with
    | None => (Raise FileNotFoundError, w)
    | Some (Malformed _) => (Ok None, w)
    | Some (Unreadable _ why) => (Raise (load_error why), w)
    | Some (Document data) => (Ok (Some data), w)
    end.

(** [json.dump(v, f)] on the file opened with mode ['w']. *)
Definition json_dump (v : pyval) : M unit :=
  fun w => (Ok tt, World (Some (Document v)) (S (writes w))).

(** ** Built-ins *)

(** *** Floats *)

(** The binary64 nearest to [n / d] (ties to even), for [n, d > 0], negated
    when [neg]: the quotient is taken with at least 59 bits and a sticky
    bit, then rounded once. *)
Definition float_of_ratio (neg : bool) (n d : Z) : float :=
  let k := Z.max 0 (60 + Z.log2 d - Z.log2 n) in
  let q := (n * 2 ^ k) / d in
  let r := (n * 2 ^ k) mod d in
  let m := 2 * q + (if r =? 0 then 0 else 1) in
  SF2Prim (binary_normalize prec emax (if neg then - m else m) (- k - 1) false).

(** [a / 2^k] rounded to the nearest integer, ties to even. *)
Definition div_pow2_half_even (a k : Z) : Z :=
  let d := 2 ^ k in
  let q := a / d in
  let r := a mod d in
  if 2 * r <? d then q
  else if d <? 2 * r then q + 1
  else if Z.even q then q else q + 1.

(** [round(x, 2)] on a float: the exact value of [x] is rounded to two
    decimals (ties to even), and the decimal is read back as a float.
    NaN, infinities and zeros are returned as they are. *)
Definition round2 (x : float) : float :=
  match Prim2SF x with
  | S754_finite s m e =>
      let y := if 0 <=? e then Z.pos m * 2 ^ e * 100
               else div_pow2_half_even (Z.pos m * 100) (- e) in
      if y =? 0 then (if s then (-0)%float else 0%float)
      else float_of_ratio s y 100
  | _ => x
  end.

(** The decimal digits of a natural number. *)
Definition decimal (n : Z) : string :=
  NilZero.string_of_uint (N.to_uint (Z.to_N n)).

(** ["%.2f" % x]: the exact value of [x] rounded to two decimals (ties to
    even) and printed with its sign and both decimals. *)
Definition format_2f (x : float) : string :=
  match Prim2SF x with
  | S754_nan => "nan"%string
  | S754_infinity s => if s then "-inf"%string else "inf"%string
  | S754_zero s => if s then "-0.00"%string else "0.00"%string
  | S754_finite s m e =>
      let y := if 0 <=? e then Z.pos m * 2 ^ e * 100
               else div_pow2_half_even (Z.pos m * 100) (- e) in
      let cents := y mod 100 in
      String.append (if s then "-"%string else ""%string)
        (String.append (decimal (y / 100))
           (String.append "."%string
              (String.append (if cents <? 10 then "0"%string else ""%string)
                             (decimal cents))))
  end.

(** [float(z)] for an [int]: nearest float, [OverflowError] beyond range. *)
Definition float_of_int (z : Z) : result float :=
  match binary_normalize prec emax z 0 false with
  | S754_infinity _ => Raise OverflowError
  | sf => Ok (SF2Prim sf)
  end.

(** Exact three-way comparison of an [int] with a float ([None]: NaN). *)
Definition compare_int_float (z : Z) (f : float) : option comparison :=
  match Prim2SF f with
  | S754_nan => None
  | S754_infinity s => Some (if s then Gt else Lt)
  | S754_zero _ => Some (z ?= 0)
  | S754_finite s m e =>
      let v := if s then Z.neg m else Z.pos m in
      Some (if 0 <=? e then z ?= v * 2 ^ e else z * 2 ^ (- e) ?= v)
  end.

(** *** Numbers, equality and order *)

Inductive num : Type :=
  | NInt (z : Z)
  | NFloat (f : float).

(** [bool] is a subclass of [int]. *)
Definition as_num (v : pyval) : option num :=
  match v with
  | PBool b => Some (NInt (if b then 1 else 0))
  | PInt z => Some (NInt z)
  | PFloat f => Some (NFloat f)
  | _ => None
  end.

Definition num_compare (a b : num) : option comparison :=
  match a, b with
  | NInt x, NInt y => Some (x ?= y)
  | NInt x, NFloat g => compare_int_float x g
  | NFloat f, NInt y => option_map CompOpp (compare_int_float y f)
  | NFloat f, NFloat g =>
      match PrimFloat.compare f g with
      | FEq => Some Eq
      | FLt => Some Lt
      | FGt => Some Gt
      | FNotComparable => None
      end
  end.

Definition num_eqb (a b : num) : bool :=
  match num_compare a b with Some Eq => true | _ => false end.

Definition num_ltb (a b : num) : bool :=
  match num_compare a b with Some Lt => true | _ => false end.

Fixpoint dict_get (k : string) (d : list (string * pyval)) : option pyval :=
  match d with
  | [] => None
  | (k', v) :: d' => if String.eqb k' k then Some v else dict_get k d'
  end.

(** [d[k] = v]: an existing key keeps its place, a new one goes last. *)
Fixpoint dict_set (k : string) (v : pyval) (d : list (string * pyval))
    : list (string * pyval) :=
  match d with
  | [] => [(k, v)]
  | (k', v') :: d' =>
      if String.eqb k' k then (k', v) :: d' else (k', v') :: dict_set k v d'
  end.

(** [a == b].  Numbers compare by value across [bool], [int] and [float];
    lists element by element; dicts key by key whatever the order.  NaN
    equals nothing (the identity shortcut of containers is not modelled). *)
Fixpoint py_eqb (a b : pyval) {struct a} : bool :=
  match a, b with
  | PNone, PNone => true
  | PStr s, PStr t => String.eqb s t
  | PList l1, PList l2 =>
      (fix all2 (l1 l2 : list pyval) : bool :=
         match l1, l2 with
         | [], [] => true
         | x :: l1', y :: l2' => py_eqb x y && all2 l1' l2'
         | _, _ => false
         end) l1 l2
  | PDict d1, PDict d2 =>
      (length d1 =? length d2)%nat &&
      (fix all1 (d : list (string * pyval)) : bool :=
         match d with
         | [] => true
         | (k, v) :: d' =>
             match dict_get k d2 with
             | Some v' => py_eqb v v'
             | None => false
             end && all1 d'
         end) d1
  | _, _ =>
      match as_num a, as_num b with
      | Some x, Some y => num_eqb x y
      | _, _ => false
      end
  end.

(** [a < b] as [sorted] needs it on hashable values: numbers among
    themselves, strings among themselves by code point. *)
Definition py_lt (a b : pyval) : result bool :=
  match a, b with
  | PStr s, PStr t => Ok (String.ltb s t)
  | _, _ =>
      match as_num a, as_num b with
      | Some x, Some y => Ok (num_ltb x y)
      | _, _ => Raise TypeError
      end
  end.

(** [bool(v)] *)
Definition py_truthy (v : pyval) : bool :=
  match v with
  | PNone => false
  | PBool b => b
  | PInt z => negb (z =? 0)
  | PFloat f => negb (PrimFloat.eqb f 0)
  | PStr s => negb (String.eqb s "")
  | PList l => negb (bool_decide (l = []))
  | PDict d => negb (bool_decide (d = []))
  end.

(** *** Containers *)

Definition py_hashable (v : pyval) : bool :=
  match v with
  | PList _ | PDict _ => false
  | _ => true
  end.

(** [x in l] for a list [l]. *)
Definition list_contains (l : list pyval) (x : pyval) : bool :=
  existsb (fun y => py_eqb y x) l.

(** [s.add(x)] on a set kept as a duplicate-free list. *)
Definition py_set_add (s : list pyval) (x : pyval) : result (list pyval) :=
  if py_hashable x
  then Ok (if list_contains s x then s else s ++ [x])
  else Raise TypeError.

Fixpoint py_insert (x : pyval) (l : list pyval) : result (list pyval) :=
  match l with
  | [] => Ok [x]
  | y :: l' =>
      let* lt := py_lt x y in
      if lt then Ok (x :: y :: l')
      else let* r := py_insert x l' in Ok (y :: r)
  end.

(** [sorted(l)] for values without ties (the elements of a set). *)
Definition py_sorted (l : list pyval) : result (list pyval) :=
  foldM (fun acc x => py_insert x acc) [] l.

(** [l[i]] on a list, negative indices counting from the end. *)
Definition list_index (l : list pyval) (i : Z) : result pyval :=
  let j := if i <? 0 then i + Z.of_nat (length l) else i in
  if j <? 0 then Raise IndexError
  else match l !! Z.to_nat j with
       | Some v => Ok v
       | None => Raise IndexError
       end.

Fixpoint str_contains (needle hay : string) : bool :=
  String.prefix needle hay ||
  match hay with
  | EmptyString => false
  | String _ hay' => str_contains needle hay'
  end.

Fixpoint str_chars (s : string) : list pyval :=
  match s with
  | EmptyString => []
  | String c s' => PStr (String c EmptyString) :: str_chars s'
  end.

(** [obj[k]] for a string key [k]. *)
Definition py_getitem (obj : pyval) (k : string) : result pyval :=
  match obj with
  | PDict d =>
      match dict_get k d with
      | Some v => Ok v
      | None => Raise KeyError
      end
  | _ => Raise TypeError
  end.

(** [obj[k] = v] for a string key [k]; the updated object. *)
Definition py_setitem (obj : pyval) (k : string) (v : pyval) : result pyval :=
  match obj with
  | PDict d => Ok (PDict (dict_set k v d))
  | _ => Raise TypeError
  end.

(** [k in obj] for a string [k]. *)
Definition py_contains (obj : pyval) (k : string) : result bool :=
  match obj with
  | PDict d => Ok (bool_decide (is_Some (dict_get k d)))
  | PList l => Ok (list_contains l (PStr k))
  | PStr s => Ok (str_contains k s)
  | _ => Raise TypeError
  end.

(** [obj.get(k, default)] *)
Definition py_get (obj : pyval) (k : string) (dflt : pyval) : result pyval :=
  match obj with
  | PDict d => Ok (default dflt (dict_get k d))
  | _ => Raise AttributeError
  end.

(** [len(obj)]; a string's length is counted in bytes (exact for ASCII). *)
Definition py_len (obj : pyval) : result Z :=
  match obj with
  | PList l => Ok (Z.of_nat (length l))
  | PDict d => Ok (Z.of_nat (length d))
  | PStr s => Ok (Z.of_nat (String.length s))
  | _ => Raise TypeError
  end.

(** [iter(obj)]: the items a [for] loop visits. *)
Definition py_iter (obj : pyval) : result (list pyval) :=
  match obj with
  | PList l => Ok l
  | PDict d => Ok (map (fun kv => PStr (fst kv)) d)
  | PStr s => Ok (str_chars s)
  | _ => Raise TypeError
  end.

(** [obj[i]] for an integer [i]. *)
Definition py_index (obj : pyval) (i : Z) : result pyval :=
  match obj with
  | PList l => list_index l i
  | PStr s => list_index (str_chars s) i
  | PDict _ => Raise KeyError
  | _ => Raise TypeError
  end.

(** The bound method [obj.append]: the object after appending. *)
Definition py_append (obj : pyval) : result (pyval -> pyval) :=
  match obj with
  | PList l => Ok (fun x => PList (l ++ [x]))
  | _ => Raise AttributeError
  end.

(** [obj.pop(i)]: the object after the removal. *)
Definition py_pop (obj : pyval) (i : Z) : result pyval :=
  match obj with
  | PList l =>
      let j := if i <? 0 then i + Z.of_nat (length l) else i in
      if (0 <=? j) && (j <? Z.of_nat (length l))
      then Ok (PList (delete (Z.to_nat j) l))
      else Raise IndexError
  | PDict _ => Raise KeyError
  | _ => Raise AttributeError
  end.

(** [obj[i][k] = v] on a list of dicts; the updated list. *)
Definition py_setitem_at (obj : pyval) (i : Z) (k : string) (v : pyval)
    : result pyval :=
  let* item := py_index obj i in
  let* item' := py_setitem item k v in
  match obj with
  | PList l =>
      let j := if i <? 0 then i + Z.of_nat (length l) else i in
      Ok (PList (<[Z.to_nat j := item']> l))
  | _ => Raise TypeError
  end.

(** [0 <= index < len(obj)] *)
Definition in_bounds (index : Z) (obj : pyval) : result bool :=
  if 0 <=? index
  then let* n := py_len obj in Ok (index <? n)
  else Ok false.

(** The dict literal [{'name': n, 'value': v, 'group': g}]. *)
Definition dimension (n : pyval) (v : float) (g : pyval) : pyval :=
  PDict [("name"%string, n); ("value"%string, PFloat v); ("group"%string, g)].

(** *** Strings *)

(** [s.replace(c, by)] for a one-character ASCII pattern [c]. *)
Fixpoint str_replace (c : ascii) (by_ : string) (s : string) : string :=
  match s with
  | EmptyString => EmptyString
  | String a s' =>
      if Ascii.eqb a c then String.append by_ (str_replace c by_ s')
      else String a (str_replace c by_ s')
  end.

(** [sep.join(parts)] *)
Definition str_join (sep : string) (parts : list string) : string :=
  String.concat sep parts.

(** Reference instances of the three string built-ins the program is
    parametric in, exact on ASCII input of the stated shape. *)

Definition digit_of (c : ascii) : option Z :=
  let n := Z.of_N (N_of_ascii c) in
  if (48 <=? n) && (n <=? 57) then Some (n - 48) else None.

(** Leading decimal digits of [s] pushed onto [acc]: the new accumulator,
    how many digits were read, and the rest of [s]. *)
Fixpoint read_digits (s : string) (acc count : Z) : Z * Z * string :=
  match s with
  | EmptyString => (acc, count, s)
  | String c s' =>
      match digit_of c with
      | Some d => read_digits s' (10 * acc + d) (count + 1)
      | None => (acc, count, s)
      end
  end.

(** [float(s)] for [s] of the shape [[+-]digits[.digits]]; every other
    string is rejected. *)
Definition decimal_float_of_str (s : string) : option float :=
  let '(neg, body) :=
    match s with
    | String "-" s' => (true, s')
    | String "+" s' => (false, s')
    | _ => (false, s)
    end in
  let '(ip, n1, rest) := read_digits body 0 0 in
  let '(m, n2, rest') :=
    match rest with
    | String "." r => read_digits r ip 0
    | _ => (ip, 0, rest)
    end in
  if String.eqb rest' "" && (0 <? n1 + n2)
  then Some (if m =? 0 then (if neg then (-0)%float else 0%float)
             else float_of_ratio neg m (10 ^ n2))
  else None.

Definition is_ascii_space (c : ascii) : bool :=
  let n := N_of_ascii c in
  ((9 <=? n) && (n <=? 13) || (28 <=? n) && (n <=? 32))%N.

Fixpoint lstrip (s : string) : string :=
  match s with
  | String c s' => if is_ascii_space c then lstrip s' else s
  | EmptyString => s
  end.

Fixpoint rstrip (s : string) : string :=
  match s with
  | EmptyString => EmptyString
  | String c s' =>
      match rstrip s' with
      | EmptyString =>
          if is_ascii_space c then EmptyString else String c EmptyString
      | t => String c t
      end
  end.

(** [s.strip()] on ASCII text. *)
Definition ascii_strip (s : string) : string := rstrip (lstrip s).

Definition ascii_lower_char (c : ascii) : ascii :=
  let n := N_of_ascii c in
  if ((65 <=? n) && (n <=? 90))%N then ascii_of_N (n + 32) else c.

(** [s.lower()] on ASCII text. *)
Fixpoint ascii_lower (s : string) : string :=
  match s with
  | EmptyString => EmptyString
  | String c s' => String (ascii_lower_char c) (ascii_lower s')
  end.

(** ** Requests and responses *)

Record request : Type := Request {
  method : string;
  form : list (string * string);
  args : list (string * string)
}.

(** [fields.get(k)]: the first value sent for [k]. *)
Fixpoint field_get (k : string) (fields : list (string * string))
    : option string :=
  match fields with
  | [] => None
  | (k', v) :: rest => if String.eqb k' k then Some v else field_get k rest
  end.

(** What [fields.get(k)] is in Python: a [str], or [None]. *)
Definition str_or_none (v : option string) : pyval :=
  match v with
  | Some s => PStr s
  | None => PNone
  end.

(** [fields.getlist(k)]: every value sent for [k], in order. *)
Definition field_getlist (k : string) (fields : list (string * string))
    : list string :=
  map snd (filter (fun kv => String.eqb (fst kv) k = true) fields).

(** What [index] hands to the template. *)
Record context : Type := Context {
  ctx_result : option float;
  ctx_number : option float;
  ctx_sqrt2 : float;
  ctx_dimensions : pyval;
  ctx_groups : pyval;
  ctx_open_groups : list string
}.

Inductive response : Type :=
  | Render (ctx : context)
  | Redirect (url : string).

(** *** The template, where it shows the computation

    [result], [number] and [sqrt2] occur in five expressions of
    [HTML_TEMPLATE]: the value of the number field, the test that opens
    the result block, and three expressions inside that block.  The rest
    of the page depends on the dimensions, the groups and the open
    markers only. *)

(** The text of an expression [{{ e }}]: the empty string, or [str(v)]
    for [v] a float or [None].  The digits [str] prints are not modelled;
    the value is kept. *)
Inductive shown : Type :=
  | Blank
  | Shown (v : option float).

(** The block under [{% if result %}]. *)
Record result_block : Type := Result_block {
  blk_number : shown;    (* {{ number }} *)
  blk_result : string;   (* {{ "%.2f"|format(result) }} *)
  blk_sqrt2 : string;    (* {{ "%.2f"|format(sqrt2) }} *)
  blk_value : shown      (* value="{{ result }}" of the save form *)
}.

Record form_view : Type := Form_view {
  number_field : shown;                (* {{ number if number else '' }} *)
  result_shown : option result_block   (* {% if result %} ... {% endif %} *)
}.

Definition template_compute (ctx : context) : form_view :=
  {| number_field :=
       match ctx_number ctx with
       | Some number =>
           if py_truthy (PFloat number) then Shown (Some number) else Blank
       | None => Blank
       end;
     result_shown :=
       match ctx_result ctx with
       | Some result =>
           if py_truthy (PFloat result)
           then Some {| blk_number := Shown (ctx_number ctx);
                        blk_result := format_2f result;
                        blk_sqrt2 := format_2f (ctx_sqrt2 ctx);
                        blk_value := Shown (Some result) |}
           else None
       | None => None
       end |}.

(** The page of a request that computed nothing: an empty number field
    and no result block. *)
Definition empty_form : form_view :=
  {| number_field := Blank; result_shown := None |}.

(** [url_for('index')] *)
Definition url_index : string := "/".

(** [redirect_url += '?' + '&'.join([f'open={group}' ...])] when the list
    is not empty. *)
Definition with_open_groups (url : string) (open_groups : list string)
    : string :=
  if bool_decide (open_groups = []) then url
  else
    let markers := map (fun group => String.append "open=" group) open_groups in
    String.append url (String.append "?" (str_join "&" markers)).

(** ** Sample data *)

Definition head : pyval :=
  PDict [("name", PStr "Head"); ("value", PFloat 20); ("group", PStr "Default")]%string.
Definition arm : pyval :=
  PDict [("name", PStr "Arm"); ("value", PFloat 7.07); ("group", PStr "G1")]%string.
Definition leg : pyval :=
  PDict [("name", PStr "Leg"); ("value", PFloat 3.14); ("group", PStr "Default")]%string.
Definition eye : pyval :=
  PDict [("name", PStr "Eye"); ("value", PFloat 1.5); ("group", PStr "G2")]%string.

(** A file holding the four sample records, never written so far. *)
Definition sample_world : world :=
  World (Some (Document (PList [head; arm; leg; eye]))) 0.

(** A legacy file, [{"Head": 20, "Arm": "about 7", "Leg": null}]. *)
Definition legacy_world : world :=
  World (Some (Document (PDict [("Head"%string, PInt 20);
                                ("Arm"%string, PStr "about 7");
                                ("Leg"%string, PNone)]))) 0.

Section Program.

(** [float(s)] on a string: [None] when it raises [ValueError]. *)
Variable float_of_str : string -> option float.

(** [float(v)] *)
Definition py_float (v : pyval) : result float :=
  match v with
  | PFloat f => Ok f
  | PInt z => float_of_int z
  | PBool b => Ok (if b then 1%float else 0%float)
  | PStr s =>
      match float_of_str s with
      | Some f => Ok f
      | None => Raise ValueError
      end
  | _ => Raise TypeError
  end.

(** ** Storage *)

(** One pass of the legacy loop: a [name -> value] pair becomes a record. *)
Definition upgrade_entry (kv : string * pyval) : result pyval :=
  except_value_type
    (let* f := py_float (snd kv) in
     Ok (dimension (PStr (fst kv)) f (PStr "Default")))
    (Ok (dimension (PStr (fst kv)) 0%float (PStr "Default"))).

(** One pass of the list loop: coerce [item['value']], backfill the group. *)
Definition normalize_item (item : pyval) : result pyval :=
  let* item1 :=
    except_value_type
      (let* v := py_getitem item "value" in
       let* f := py_float v in
       py_setitem item "value" (PFloat f))
      (py_setitem item "value" (PFloat 0%float)) in
  let* has_group := py_contains item1 "group" in
  if negb has_group then py_setitem item1 "group" (PStr "Default")
  else Ok item1.

Definition normalize_all (data : pyval) : result pyval :=
  let* items := py_iter data in
  let* items' := mapM normalize_item items in
  Ok (match data with PList _ => PList items' | _ => data end).

Definition load_dimensions : M pyval :=
  let! found := path_exists in
  if found then
    let! parsed := json_load in
    match parsed with
    | Some (PDict entries) =>
        let! dimensions_list := liftR (mapM upgrade_entry entries) in
        ret (PList dimensions_list)
    | Some data => liftR (normalize_all data)
    | None => ret (PList [])
    end
  else ret (PList []).

Definition save_dimensions (dimensions_list : pyval) : M unit :=
  json_dump dimensions_list.

(** ** Dimension operations *)

Definition add_dimension (name value : pyval) (group : option pyval) : M unit :=
  let group := default (PStr "Default") group in
  let! dimensions := load_dimensions in
  let! append := liftR (py_append dimensions) in
  let! v := liftR (py_float value) in
  save_dimensions (append (dimension name (round2 v) group)).

Definition delete_dimension (index : Z) : M unit :=
  let! dimensions := load_dimensions in
  let! ok := liftR (in_bounds index dimensions) in
  if ok then
    let! dimensions' := liftR (py_pop dimensions index) in
    save_dimensions dimensions'
  else ret tt.

Definition rename_dimension (index : Z) (new_name : pyval) : M unit :=
  let! dimensions := load_dimensions in
  let! ok := liftR (in_bounds index dimensions) in
  if ok then
    let! dimensions' :=
      liftR (py_setitem_at dimensions index "name" new_name) in
    save_dimensions dimensions'
  else ret tt.

(** The loop of [reorder_dimensions]; [None] is its early [return False]. *)
Fixpoint reorder_loop (dimensions : pyval) (new_order : list Z)
    (reordered : list pyval) : result (option (list pyval)) :=
  match new_order with
  | [] => Ok (Some reordered)
  | idx :: rest =>
      let* ok := in_bounds idx dimensions in
      if ok then
        let* d := py_index dimensions idx in
        reorder_loop dimensions rest (reordered ++ [d])
      else Ok None
  end.

Definition reorder_dimensions (new_order : list Z) : M bool :=
  let! dimensions := load_dimensions in
  let! n := liftR (py_len dimensions) in
  if negb (Z.of_nat (length new_order) =? n) then ret false
  else
    let! r := liftR (reorder_loop dimensions new_order []) in
    match r with
    | Some reordered => let! _ := save_dimensions (PList reordered) in ret true
    | None => ret false
    end.

Definition update_dimension_group (index : Z) (new_group : pyval) : M bool :=
  let! dimensions := load_dimensions in
  let! ok := liftR (in_bounds index dimensions) in
  if ok then
    let! dimensions' :=
      liftR (py_setitem_at dimensions index "group" new_group) in
    let! _ := save_dimensions dimensions' in
    ret true
  else ret false.

(** The loop of [get_groups]: [groups.add(dim.get('group', 'Default'))]. *)
Definition collect_groups (groups : list pyval) (dim : pyval)
    : result (list pyval) :=
  let* g := py_get dim "group" (PStr "Default") in
  py_set_add groups g.

Definition get_groups : M pyval :=
  let! dimensions := load_dimensions in
  let! items := liftR (py_iter dimensions) in
  let! groups := liftR (foldM collect_groups [] items) in
  let! sorted := liftR (py_sorted groups) in
  ret (PList sorted).

(** First loop of [reorder_groups]: the groups in order of first use. *)
Definition note_group (current_groups : list pyval) (dim : pyval)
    : result (list pyval) :=
  let* group := py_get dim "group" (PStr "Default") in
  Ok (if negb (list_contains current_groups group)
      then current_groups ++ [group] else current_groups).

(** Second loop: [idx < 0 or idx >= len(current_groups)] rejects. *)
Definition order_valid (new_order : list Z) (current_groups : list pyval)
    : bool :=
  forallb (fun idx =>
             negb ((idx <? 0) || (Z.of_nat (length current_groups) <=? idx)))
          new_order.

(** Last loop, inner part: the dimensions of one group, appended. *)
Definition gather_group (dimensions : list pyval) (reordered : list pyval)
    (group : pyval) : result (list pyval) :=
  foldM (fun acc dim =>
           let* g := py_get dim "group" (PStr "Default") in
           Ok (if py_eqb g group then acc ++ [dim] else acc))
        reordered dimensions.

Definition reorder_groups (new_order : list Z) : M bool :=
  let! dimensions := load_dimensions in
  if negb (py_truthy dimensions) then ret false
  else
    let! items := liftR (py_iter dimensions) in
    let! current_groups := liftR (foldM note_group [] items) in
    if negb (length new_order =? length current_groups)%nat then ret false
    else if negb (order_valid new_order current_groups) then ret false
    else
      let! new_groups := liftR (mapM (list_index current_groups) new_order) in
      let! reordered := liftR (foldM (gather_group items) [] new_groups) in
      let! _ := save_dimensions (PList reordered) in
      ret true.

(** ** Request handlers *)

(** [s.strip()] and [s.lower()] *)
Variable str_strip : string -> string.
Variable str_lower : string -> string.

(** [group.replace(' ', '-').replace('/', '').replace('.', '').lower()] *)
Definition group_slug (group : string) : string :=
  str_lower
    (str_replace "." "" (str_replace "/" "" (str_replace " " "-" group))).

(** The [try] block of [index]: the new [number] and [result]. *)
Definition compute (fields : list (string * string))
    : result (option float * option float) :=
  match field_get "number" fields with
  | None => Raise BadRequestKeyError
  | Some s =>
      match float_of_str s with
      | Some number => Ok (Some number, Some (number * PrimFloat.sqrt 2)%float)
      | None => Ok (None, None)
      end
  end.

Definition index (req : request) : M response :=
  let sqrt2 := PrimFloat.sqrt 2 in
  let! dimensions := load_dimensions in
  let! groups := get_groups in
  let open_groups := field_getlist "open" (args req) in
  let! computed :=
    (if String.eqb (method req) "POST" then liftR (compute (form req))
     else ret (None, None)) in
  ret (Render {| ctx_result := snd computed;
                 ctx_number := fst computed;
                 ctx_sqrt2 := sqrt2;
                 ctx_dimensions := dimensions;
                 ctx_groups := groups;
                 ctx_open_groups := open_groups |}).

(** The group a form selects, with the open groups it adds: the
    sentinel ['new'] reads the [new_group] field. *)
Definition chosen_group (fields : list (string * string))
    (open_groups : list string) : string * list string :=
  let group := default "Default"%string (field_get "group" fields) in
  if String.eqb group "new" then
    match field_get "new_group" fields with
    | Some new_group =>
        if negb (String.eqb new_group "")
           && negb (String.eqb (str_strip new_group) "")
        then (str_strip new_group,
              open_groups ++ [group_slug (str_strip new_group)])
        else ("Default"%string, open_groups)
    | None => ("Default"%string, open_groups)
    end
  else (group, open_groups).

Definition save (req : request) : M response :=
  let dimension_name := str_or_none (field_get "dimension_name" (form req)) in
  let value := str_or_none (field_get "value" (form req)) in
  let open_groups := field_getlist "open_groups" (form req) in
  let '(group, open_groups) := chosen_group (form req) open_groups in
  let! _ :=
    (if py_truthy dimension_name && py_truthy value
     then add_dimension dimension_name value (Some (PStr group))
     else ret tt) in
  ret (Redirect (with_open_groups url_index open_groups)).

(** ** Specification vocabulary *)

(** A record as [load_dimensions] leaves it: a dict with a float under
    ['value'] and some group. *)
Definition normalized (d : pyval) : Prop :=
  exists e f, d = PDict e /\
    dict_get "value" e = Some (PFloat f) /\
    is_Some (dict_get "group" e).

(** A valid record of the data model: a string name, a float value and
    a group that is not null. *)
Definition valid_record (d : pyval) : Prop :=
  exists e name f g, d = PDict e /\
    dict_get "name" e = Some (PStr name) /\
    dict_get "value" e = Some (PFloat f) /\
    dict_get "group" e = Some g /\ g <> PNone.

(** The world after a write of [v]. *)
Definition written (v : pyval) (w : world) : world :=
  World (Some (Document v)) (S (writes w)).

(** [float(v)] with the fallback of the two [except] clauses of
    [load_dimensions]: what a value is coerced to when [float] does not
    overflow. *)
Definition coerced (v : pyval) : float :=
  match py_float v with
  | Ok f => f
  | Raise _ => 0%float
  end.

(** [float(v)] raises [OverflowError]: an [int] beyond the float range. *)
Definition overflows (v : pyval) : Prop := py_float v = Raise OverflowError.

(** The record the legacy loop makes of one [name -> value] pair. *)
Definition upgraded (kv : string * pyval) : pyval :=
  PDict [("name"%string, PStr (fst kv));
         ("value"%string, PFloat (coerced (snd kv)));
         ("group"%string, PStr "Default")].

(** An array item with its value coerced and its group backfilled. *)
Definition backfilled (e : list (string * pyval)) : pyval :=
  let v := default PNone (dict_get "value" e) in
  let e1 := dict_set "value" (PFloat (coerced v)) e in
  PDict (if bool_decide (is_Some (dict_get "group" e))
         then e1 else dict_set "group" (PStr "Default") e1).

(** An array item with a value field that [float] does not overflow on. *)
Definition has_value (e : list (string * pyval)) : Prop :=
  exists v, dict_get "value" e = Some v /\ ~ overflows v.

(** The group of a record, when it is a string. *)
Definition group_name (d : pyval) : option string :=
  match d with
  | PDict e =>
      match dict_get "group" e with
      | Some (PStr g) => Some g
      | _ => None
      end
  | _ => None
  end.

Definition string_grouped (d : pyval) : Prop := is_Some (group_name d).

Definition group_of (d : pyval) : string := default ""%string (group_name d).

(** Strings in strictly increasing code-point order. *)
Definition str_lt (a b : string) : Prop := String.ltb a b = true.

(** The distinct elements of a list, each at its first occurrence. *)
Fixpoint distinct (l : list string) : list string :=
  match l with
  | [] => []
  | x :: l' => x :: filter (fun y => y <> x) (distinct l')
  end.

(** The records of [items] that belong to group [g], in their order. *)
Definition members (g : string) (items : list pyval) : list pyval :=
  filter (fun d => group_of d = g) items.

(** The first loop of [reorder_groups] on string groups, as a fold. *)
Definition note_str (acc : list string) (g : string) : list string :=
  if bool_decide (g ∈ acc) then acc else acc ++ [g].

(** A form field that was not sent, or was sent empty. *)
Definition missing_or_empty (v : option string) : Prop :=
  v = None \/ v = Some ""%string.

(** ** The remaining routes *)

(** *** Values of a request body

    [load_dimensions] meets a string only where it is empty; a request
    body can hold any string, so the length and the items of a string
    are taken by code point here. *)

(** A byte [10xxxxxx] continues a UTF-8 character. *)
Definition is_continuation (c : ascii) : bool :=
  let n := N_of_ascii c in ((128 <=? n) && (n <? 192))%N.

Definition starts_inside (s : string) : bool :=
  match s with
  | String c _ => is_continuation c
  | EmptyString => false
  end.

(** The characters of a string, one code point each. *)
Fixpoint text_chars (s : string) : list string :=
  match s with
  | EmptyString => []
  | String c s' =>
      match starts_inside s', text_chars s' with
      | true, t :: rest => String c t :: rest
      | _, chars => String c EmptyString :: chars
      end
  end.

(** [len(obj)] *)
Definition len_of (obj : pyval) : result Z :=
  match obj with
  | PStr s => Ok (Z.of_nat (length (text_chars s)))
  | _ => py_len obj
  end.

(** The items a [for] loop over [obj] visits. *)
Definition items_of (obj : pyval) : result (list pyval) :=
  match obj with
  | PStr s => Ok (map PStr (text_chars s))
  | _ => py_iter obj
  end.

Definition num_leb (a b : num) : bool :=
  match num_compare a b with Some Lt | Some Eq => true | _ => false end.

(** [z <= v] for an [int] [z]: a number compares, anything else raises. *)
Definition le_int (z : Z) (v : pyval) : result bool :=
  match as_num v with
  | Some y => Ok (num_leb (NInt z) y)
  | None => Raise TypeError
  end.

(** [v < z] for an [int] [z]. *)
Definition lt_int (v : pyval) (z : Z) : result bool :=
  match as_num v with
  | Some x => Ok (num_ltb x (NInt z))
  | None => Raise TypeError
  end.

(** [v >= z] for an [int] [z]. *)
Definition ge_int (v : pyval) (z : Z) : result bool :=
  match as_num v with
  | Some x => Ok (num_leb (NInt z) x)
  | None => Raise TypeError
  end.

(** [l[idx]] for a list: the index must be an [int] (a [bool] is one). *)
Definition list_subscript (l : list pyval) (idx : pyval) : result pyval :=
  match idx with
  | PInt z => list_index l z
  | PBool b => list_index l (if b then 1 else 0)
  | _ => Raise TypeError
  end.

(** [obj[idx]] *)
Definition py_subscript (obj idx : pyval) : result pyval :=
  match obj with
  | PList l => list_subscript l idx
  | PStr s => list_subscript (map PStr (text_chars s)) idx
  | PDict d =>
      match idx with
      | PStr k => py_getitem obj k
      | PList _ | PDict _ => Raise TypeError
      | _ => Raise KeyError
      end
  | _ => Raise TypeError
  end.

(** [0 <= idx < len(obj)] *)
Definition in_bounds_py (idx obj : pyval) : result bool :=
  let* lower := le_int 0 idx in
  if lower then let* n := len_of obj in lt_int idx n
  else Ok false.

(** *** The reorder operations on any value

    The two JSON routes pass [data['order']] on as it came.  These are
    [reorder_dimensions] and [reorder_groups] with [new_order] any
    value; on a list of ints they are the functions above. *)

Fixpoint reorder_loop_py (dimensions : pyval) (new_order : list pyval)
    (reordered : list pyval) : result (option (list pyval)) :=
  match new_order with
  | [] => Ok (Some reordered)
  | idx :: rest =>
      let* ok := in_bounds_py idx dimensions in
      if ok then
        let* d := py_subscript dimensions idx in
        reorder_loop_py dimensions rest (reordered ++ [d])
      else Ok None
  end.

Definition reorder_dimensions_py (new_order : pyval) : M bool :=
  let! dimensions := load_dimensions in
  let! m := liftR (len_of new_order) in
  let! n := liftR (len_of dimensions) in
  if negb (m =? n) then ret false
  else
    let! idxs := liftR (items_of new_order) in
    let! r := liftR (reorder_loop_py dimensions idxs []) in
    match r with
    | Some reordered => let! _ := save_dimensions (PList reordered) in ret true
    | None => ret false
    end.

(** The validation loop: [idx < 0 or idx >= len(current_groups)]. *)
Fixpoint order_valid_py (new_order : list pyval) (n : Z) : result bool :=
  match new_order with
  | [] => Ok true
  | idx :: rest =>
      let* negative := lt_int idx 0 in
      if negative then Ok false
      else
        let* beyond := ge_int idx n in
        if beyond then Ok false else order_valid_py rest n
  end.

Definition reorder_groups_py (new_order : pyval) : M bool :=
  let! dimensions := load_dimensions in
  if negb (py_truthy dimensions) then ret false
  else
    let! items := liftR (py_iter dimensions) in
    let! current_groups := liftR (foldM note_group [] items) in
    let! m := liftR (len_of new_order) in
    if negb (m =? Z.of_nat (length current_groups)) then ret false
    else
      let! idxs := liftR (items_of new_order) in
      let! valid :=
        liftR (order_valid_py idxs (Z.of_nat (length current_groups))) in
      if negb valid then ret false
      else
        let! new_groups :=
          liftR (mapM (list_subscript current_groups) idxs) in
        let! reordered := liftR (foldM (gather_group items) [] new_groups) in
        let! _ := save_dimensions (PList reordered) in
        ret true.

(** *** The JSON routes

    [data] is what [request.json] evaluates to; the result is the
    object handed to [jsonify]. *)

Definition success_body (success : bool) : pyval :=
  PDict [("success"%string, PBool success)].

(** [data and 'order' in data] *)
Definition has_order (data : pyval) : result bool :=
  if py_truthy data then py_contains data "order" else Ok false.

Definition reorder (data : pyval) : M pyval :=
  let! has := liftR (has_order data) in
  if has then
    let! order := liftR (py_getitem data "order") in
    let! success := reorder_dimensions_py order in
    ret (success_body success)
  else ret (success_body false).

Definition reorder_groups_route (data : pyval) : M pyval :=
  let! has := liftR (has_order data) in
  if has then
    let! order := liftR (py_getitem data "order") in
    let! success := reorder_groups_py order in
    ret (success_body success)
  else ret (success_body false).

(** *** The form routes

    [delete] and [rename] of the source are [delete_route] and
    [rename_route] here. *)

(** [if safe_group_id not in open_groups: open_groups.append(...)] *)
Definition open_once (open_groups : list string) (safe_group_id : string)
    : list string :=
  if bool_decide (safe_group_id ∈ open_groups) then open_groups
  else open_groups ++ [safe_group_id].

(** The slug of a value: only a [str] has [replace]. *)
Definition py_group_slug (group : pyval) : result string :=
  match group with
  | PStr g => Ok (group_slug g)
  | _ => Raise AttributeError
  end.

Definition delete_route (index : Z) (req : request) : M response :=
  let! dimensions := load_dimensions in
  let! ok := liftR (in_bounds index dimensions) in
  let! group :=
    (if ok then
       liftR (let* d := py_index dimensions index in
              py_get d "group" (PStr "Default"))
     else ret PNone) in
  let! _ := delete_dimension index in
  let open_groups := field_getlist "open" (args req) in
  let! open_groups :=
    (if py_truthy group then
       let! safe_group_id := liftR (py_group_slug group) in
       ret (open_once open_groups safe_group_id)
     else ret open_groups) in
  ret (Redirect (with_open_groups url_index open_groups)).

Definition rename_route (index : Z) (req : request) : M response :=
  let new_name := str_or_none (field_get "new_name" (form req)) in
  let open_groups := field_getlist "open_groups" (form req) in
  let! _ :=
    (if py_truthy new_name then rename_dimension index new_name
     else ret tt) in
  ret (Redirect (with_open_groups url_index open_groups)).

(** The group [update_group] selects: as in [save], but the marker of a
    new group is added only when it is not there yet. *)
Definition chosen_group_once (fields : list (string * string))
    (open_groups : list string) : string * list string :=
  let group := default "Default"%string (field_get "group" fields) in
  if String.eqb group "new" then
    match field_get "new_group" fields with
    | Some new_group =>
        if negb (String.eqb new_group "")
           && negb (String.eqb (str_strip new_group) "")
        then (str_strip new_group,
              open_once open_groups (group_slug (str_strip new_group)))
        else ("Default"%string, open_groups)
    | None => ("Default"%string, open_groups)
    end
  else (group, open_groups).

Definition update_group (index : Z) (req : request) : M response :=
  let open_groups := field_getlist "open_groups" (form req) in
  let '(group, open_groups) := chosen_group_once (form req) open_groups in
  let! _ :=
    (if py_truthy (PStr group)
     then let! _ := update_dimension_group index (PStr group) in ret tt
     else ret tt) in
  ret (Redirect (with_open_groups url_index open_groups)).

Definition add_group (req : request) : M response :=
  let group_name := str_or_none (field_get "group_name" (form req)) in
  let open_groups := field_getlist "open_groups" (form req) in
  let! open_groups :=
    (if py_truthy group_name then
       let! safe_group_id := liftR (py_group_slug group_name) in
       ret (open_once open_groups safe_group_id)
     else ret open_groups) in
  ret (Redirect (with_open_groups url_index open_groups)).


(** A run that left the store alone, or replaced it by one list that
    loads back exactly as it was written. *)
Definition kept_or_rewritten (w w' : world) : Prop :=
  w' = w \/
  exists items,
    w' = written (PList items) w /\
    load_dimensions w' = (Ok (PList items), w').

(** A computation that writes at most once, only a list that loads back
    as written, and not at all when it raises. *)
Definition transactional {A} (m : M A) : Prop :=
  forall w,
    match m w with
    | (Ok _, w') => kept_or_rewritten w w'
    | (Raise _, w') => w' = w
    end.


(** * Properties *)

(** ** Dictionaries *)

Lemma dict_get_set_eq k v d : dict_get k (dict_set k v d) = Some v.
Proof.
  induction d as [|[k' v'] d IH]; simpl.
  - by rewrite String.eqb_refl.
  - destruct (String.eqb k' k) eqn:E; simpl; rewrite E; done.
Qed.

Lemma dict_get_set_ne k k' v d :
  k <> k' -> dict_get k' (dict_set k v d) = dict_get k' d.
Proof.
  intros Hne. induction d as [|[k0 v0] d IH]; simpl.
  - destruct (String.eqb k k') eqn:E; [|done].
    apply String.eqb_eq in E. done.
  - destruct (String.eqb k0 k) eqn:E; simpl.
    + apply String.eqb_eq in E. subst k0.
      destruct (String.eqb k k') eqn:E'; [|done].
      apply String.eqb_eq in E'. done.
    + by rewrite IH.
Qed.

Lemma dict_set_same k v d : dict_get k d = Some v -> dict_set k v d = d.
Proof.
  induction d as [|[k' v'] d IH]; simpl; [done|].
  destruct (String.eqb k' k) eqn:E.
  - by intros [= ->].
  - intros H. by rewrite IH.
Qed.

(** ** Loading *)

Lemma load_dimensions_world w : snd (load_dimensions w) = w.
Proof.
  unfold load_dimensions, bind, path_exists, json_load, liftR, ret.
  destruct w as [[[raw|raw why|data]|] n]; simpl; try done.
  destruct data; simpl; try done.
  destruct (mapM _ _); done.
Qed.

Lemma mapM_Forall {A B} (f : A -> result B) (P : B -> Prop) l l' :
  (forall x y, f x = Ok y -> P y) -> mapM f l = Ok l' -> Forall P l'.
Proof.
  intros Hf. revert l'. induction l as [|x l IH]; simpl; intros l'.
  - intros [= <-]. constructor.
  - destruct (f x) eqn:Ex; simpl; [|done].
    destruct (mapM f l) eqn:El; simpl; [|done].
    intros [= <-]. constructor; eauto.
Qed.

Lemma mapM_fixed {A} (f : A -> result A) l :
  Forall (fun x => f x = Ok x) l -> mapM f l = Ok l.
Proof.
  induction 1 as [|x l Hx _ IH]; simpl; [done|].
  by rewrite Hx, IH.
Qed.

Lemma load_absent n :
  load_dimensions (World None n) = (Ok (PList []), World None n).
Proof. reflexivity. Qed.

Lemma load_malformed raw n :
  load_dimensions (World (Some (Malformed raw)) n)
  = (Ok (PList []), World (Some (Malformed raw)) n).
Proof. reflexivity. Qed.

Lemma load_legacy entries n :
  load_dimensions (World (Some (Document (PDict entries))) n)
  = (let* l := mapM upgrade_entry entries in Ok (PList l),
     World (Some (Document (PDict entries))) n).
Proof.
  unfold load_dimensions, bind, liftR, ret; simpl.
  by destruct (mapM upgrade_entry entries).
Qed.

Lemma load_array items n :
  load_dimensions (World (Some (Document (PList items))) n)
  = (let* l := mapM normalize_item items in Ok (PList l),
     World (Some (Document (PList items))) n).
Proof.
  unfold load_dimensions, bind, liftR, ret, normalize_all; simpl.
  by destruct (mapM normalize_item items).
Qed.

Lemma upgrade_entry_normalized kv d : upgrade_entry kv = Ok d -> normalized d.
Proof.
  unfold upgrade_entry, except_value_type.
  destruct (py_float (snd kv)) as [f|[]]; simpl; try done;
    intros [= <-]; eexists _, _; (split; [reflexivity|]); simpl; eauto.
Qed.

Lemma normalize_item_normalized item d :
  normalize_item item = Ok d -> normalized d.
Proof.
  unfold normalize_item.
  destruct item as [| | | | | |e]; try done.
  simpl.
  assert (forall f r,
    (let* item1 := Ok (PDict (dict_set "value" (PFloat f) e)) in
     let* has_group := py_contains item1 "group" in
     if negb has_group then py_setitem item1 "group" (PStr "Default")
     else Ok item1) = Ok r ->
    normalized r) as Hcont.
  { intros f r. simpl. case_bool_decide as Hg; simpl; intros [= <-].
    - eexists _, f. split; [reflexivity|]. split; [apply dict_get_set_eq|done].
    - eexists _, f. split; [reflexivity|]. split.
      + rewrite dict_get_set_ne by done. apply dict_get_set_eq.
      + rewrite dict_get_set_eq. eauto. }
  destruct (dict_get "value" e) as [v|]; simpl; [|done].
  destruct (py_float v) as [f|[]] eqn:Ef; simpl; try done; apply Hcont.
Qed.

Lemma normalize_item_fixed d : normalized d -> normalize_item d = Ok d.
Proof.
  intros (e & f & -> & Hv & Hg).
  unfold normalize_item. simpl. rewrite Hv. simpl.
  rewrite (dict_set_same _ _ _ Hv). simpl.
  by rewrite bool_decide_true.
Qed.

(** What a successful load returns: a list of normalized records, or
    the empty string the file itself holds. *)
Lemma load_dimensions_shape w dims :
  fst (load_dimensions w) = Ok dims ->
  (exists items, dims = PList items /\ Forall normalized items) \/
  (dims = PStr "" /\ file w = Some (Document (PStr ""))).
Proof.
  destruct w as [[[raw|raw why|data]|] n].
  - rewrite load_malformed. intros [= <-]. left. eauto.
  - done.
  - destruct data as [| | | |s|items|entries]; try done.
    + destruct s; [intros [= <-]; by right|done].
    + rewrite load_array. simpl.
      destruct (mapM normalize_item items) as [l|] eqn:El; simpl; [|done].
      intros [= <-]. left. eexists; split; [done|].
      eapply mapM_Forall; [|done]. apply normalize_item_normalized.
    + rewrite load_legacy. simpl.
      destruct (mapM upgrade_entry entries) as [l|] eqn:El; simpl; [|done].
      intros [= <-]. left. eexists; split; [done|].
      eapply mapM_Forall; [|done]. apply upgrade_entry_normalized.
  - rewrite load_absent. intros [= <-]. left. eauto.
Qed.

Lemma load_dimensions_list w items :
  fst (load_dimensions w) = Ok (PList items) -> Forall normalized items.
Proof.
  intros H.
  destruct (load_dimensions_shape _ _ H) as [(l & [= ->] & Hl)|[[=] _]].
  done.
Qed.

Lemma load_normalized_document items n :
  Forall normalized items ->
  load_dimensions (World (Some (Document (PList items))) n)
  = (Ok (PList items), World (Some (Document (PList items))) n).
Proof.
  intros H. rewrite load_array, mapM_fixed; [done|].
  eapply Forall_impl; [done|]. apply normalize_item_fixed.
Qed.

(** A load that returned [dims], as an equation on the whole run. *)
Lemma load_dimensions_run w dims :
  fst (load_dimensions w) = Ok dims -> load_dimensions w = (Ok dims, w).
Proof.
  intros H. pose proof (load_dimensions_world w) as Hw.
  destruct (load_dimensions w) as [r w']. simpl in *. by subst.
Qed.

(** ** Storage module *)

Lemma valid_record_normalized d : valid_record d -> normalized d.
Proof.
  intros (e & name & f & g & -> & _ & Hv & Hg & _). exists e, f. eauto.
Qed.

(** C3: saving a sequence of valid records (string name, float value,
    non-null group) and loading it back yields that same sequence, in the
    same order and with the same values. *)
Theorem save_load_roundtrip (l : list pyval) (w : world) :
  Forall valid_record l ->
  let w' := snd (save_dimensions (PList l) w) in
  load_dimensions w' = (Ok (PList l), w').
Proof.
  intros Hl. simpl. apply load_normalized_document.
  eapply Forall_impl; [done|]. apply valid_record_normalized.
Qed.

(** C7, with its defect.  A file whose text the JSON parser rejects with
    a syntax error loads as the empty sequence and is left as it is, write
    counter included, by [load_dimensions] and by [get_groups]; the next
    mutating operation, here [add_dimension], replaces it.  A file that
    [json.load] fails on in another way is not parseable as JSON either,
    and there [load_dimensions] does not return the empty sequence: it
    raises what [json.load] raised, [UnicodeDecodeError] for a file that
    holds the one byte 255.  The file is left as it is in that case too,
    and stays so: [add_dimension] raises the same exception before it
    writes. *)
Theorem load_unparseable_file (raw : string) (n : nat) (name group : pyval)
    (f : float) :
  (let w := World (Some (Malformed raw)) n in
   load_dimensions w = (Ok (PList []), w) /\
   get_groups w = (Ok (PList []), w) /\
   add_dimension name (PFloat f) (Some group) w
   = (Ok tt,
      written (PList [PDict [("name"%string, name);
                             ("value"%string, PFloat (round2 f));
                             ("group"%string, group)]]) w)) /\
  (forall why,
     let w := World (Some (Unreadable raw why)) n in
     load_dimensions w = (Raise (load_error why), w) /\
     add_dimension name (PFloat f) (Some group) w
     = (Raise (load_error why), w)) /\
  (let w := World (Some (Unreadable (String "255"%char "") Undecodable)) n in
   load_dimensions w = (Raise UnicodeDecodeError, w)).
Proof.
  split; [|split; [intros why; split|]; reflexivity].
  simpl. split; [apply load_malformed|]. split.
  - unfold get_groups, bind. by rewrite load_malformed.
  - unfold add_dimension, bind. by rewrite load_malformed.
Qed.

(** C5, the defect: a legacy mapping whose value is an integer beyond the
    float range makes [load_dimensions] raise [OverflowError] instead of
    yielding the record with value 0.0; the same happens in the array
    format. *)
Theorem load_overflow_raises (n : nat) :
  fst (load_dimensions
         (World (Some (Document (PDict [("Head"%string, PInt (10 ^ 400))]))) n))
  = Raise OverflowError /\
  fst (load_dimensions
         (World (Some (Document
            (PList [PDict [("name"%string, PStr "Head");
                           ("value"%string, PInt (10 ^ 400))]]))) n))
  = Raise OverflowError.
Proof. split; vm_compute; reflexivity. Qed.

(** [float] raises nothing but these three. *)
Lemma py_float_raises v e :
  py_float v = Raise e -> e = ValueError \/ e = TypeError \/ e = OverflowError.
Proof.
  destruct v; simpl; try (intros [= <-]; by eauto).
  - unfold float_of_int.
    destruct (binary_normalize _ _ _ _ _); intros [= <-]; eauto.
  - destruct (float_of_str s); intros [= <-]; eauto.
Qed.

Lemma upgrade_entry_coerced kv :
  ~ overflows (snd kv) -> upgrade_entry kv = Ok (upgraded kv).
Proof.
  unfold overflows, upgrade_entry, upgraded, coerced, except_value_type.
  destruct (py_float (snd kv)) as [f|e] eqn:E; simpl; [done|].
  destruct (py_float_raises _ _ E) as [->| [->| ->]]; done.
Qed.

Lemma mapM_map {A B} (f : A -> result B) (g : A -> B) l :
  Forall (fun x => f x = Ok (g x)) l -> mapM f l = Ok (map g l).
Proof.
  induction 1 as [|x l Hx _ IH]; simpl; [done|]. by rewrite Hx, IH.
Qed.

(** The legacy format, away from the overflow: one record per pair, in
    the order of the mapping, with the name, the coerced value and the
    group "Default"; nothing is written. *)
Theorem load_legacy_records (entries : list (string * pyval)) (n : nat) :
  Forall (fun kv => ~ overflows (snd kv)) entries ->
  let w := World (Some (Document (PDict entries))) n in
  load_dimensions w = (Ok (PList (map upgraded entries)), w).
Proof.
  intros H. simpl. rewrite load_legacy, (mapM_map _ upgraded); [done|].
  eapply Forall_impl; [done|]. intros kv. apply upgrade_entry_coerced.
Qed.

Lemma normalize_item_backfilled e :
  has_value e -> normalize_item (PDict e) = Ok (backfilled e).
Proof.
  unfold overflows, normalize_item, backfilled, coerced, except_value_type.
  intros (v & Hv & Ho). simpl. rewrite Hv. simpl.
  assert (forall f, dict_get "group" (dict_set "value" (PFloat f) e)
                    = dict_get "group" e) as Hg.
  { intros f. by apply dict_get_set_ne. }
  destruct (py_float v) as [f|x] eqn:E; simpl.
  - rewrite Hg. by case_bool_decide.
  - destruct (py_float_raises _ _ E) as [->| [->| ->]]; try done;
      simpl; rewrite Hg; by case_bool_decide.
Qed.

(** The array format, away from the overflow: every item that has a
    value field gets it coerced to a float (0.0 when [float] raises
    [ValueError] or [TypeError]) and gets the group "Default" when it has
    none; nothing is written. *)
Theorem load_array_records (dicts : list (list (string * pyval))) (n : nat) :
  Forall has_value dicts ->
  let w := World (Some (Document (PList (map PDict dicts)))) n in
  load_dimensions w = (Ok (PList (map backfilled dicts)), w).
Proof.
  intros H. simpl. rewrite load_array.
  assert (mapM normalize_item (map PDict dicts) = Ok (map backfilled dicts))
    as ->; [|done].
  induction H as [|e l He _ IH]; simpl; [done|].
  rewrite (normalize_item_backfilled e He). simpl. by rewrite IH.
Qed.

(** [load_dimensions] never writes: the world after it is the world
    before it, whatever the file holds and whether or not it raises. *)
Theorem load_never_writes (w : world) : snd (load_dimensions w) = w.
Proof. apply load_dimensions_world. Qed.

(** ** Dimension operations *)

Lemma in_bounds_list index items :
  in_bounds index (PList items)
  = Ok (bool_decide (0 <= index < Z.of_nat (length items))).
Proof.
  unfold in_bounds. simpl.
  destruct (Z.leb_spec 0 index), (Z.ltb_spec index (Z.of_nat (length items)));
    simpl; f_equal; symmetry;
    first [apply bool_decide_eq_true; lia | apply bool_decide_eq_false; lia].
Qed.

Lemma list_index_in_range (l : list pyval) index :
  0 <= index < Z.of_nat (length l) ->
  exists d, l !! Z.to_nat index = Some d /\ list_index l index = Ok d.
Proof.
  intros Hi. unfold list_index.
  destruct (Z.ltb_spec index 0); [lia|].
  destruct (Z.ltb_spec index 0); [lia|].
  destruct (lookup_lt_is_Some_2 l (Z.to_nat index)) as [d Hd]; [lia|].
  exists d. by rewrite Hd.
Qed.

(** C4: on a collection that loads as [items], adding a value that [float]
    accepts writes [items] followed by exactly one record, which carries
    the given name, the value rounded to two decimals and the given group
    ("Default" when none is given); the old records keep their content
    and positions, and a reload returns that very list. *)
Theorem add_dimension_appends (name value : pyval) (group : option pyval)
    (w : world) (items : list pyval) (f : float) :
  fst (load_dimensions w) = Ok (PList items) ->
  py_float value = Ok f ->
  let record :=
    PDict [("name"%string, name);
           ("value"%string, PFloat (round2 f));
           ("group"%string, default (PStr "Default") group)] in
  let w' := written (PList (items ++ [record])) w in
  add_dimension name value group w = (Ok tt, w') /\
  load_dimensions w' = (Ok (PList (items ++ [record])), w').
Proof.
  intros Hload Hf. simpl. split.
  - unfold add_dimension, bind.
    rewrite (load_dimensions_run _ _ Hload). simpl. by rewrite Hf.
  - apply load_normalized_document, Forall_app. split.
    + by apply (load_dimensions_list w).
    + constructor; [|done]. eexists _, _. split; [reflexivity|]. simpl. eauto.
Qed.

(** C6: with an index outside [0 .. n-1] of a collection of [n] records,
    [delete_dimension] and [rename_dimension] return normally and
    [update_dimension_group] returns [False]; none of them writes, so the
    file and the write counter are as before. *)
Theorem out_of_bounds_ignored (index : Z) (new_name new_group : pyval)
    (w : world) (items : list pyval) :
  fst (load_dimensions w) = Ok (PList items) ->
  index < 0 \/ Z.of_nat (length items) <= index ->
  delete_dimension index w = (Ok tt, w) /\
  rename_dimension index new_name w = (Ok tt, w) /\
  update_dimension_group index new_group w = (Ok false, w).
Proof.
  intros Hload Hi.
  unfold delete_dimension, rename_dimension, update_dimension_group, bind.
  rewrite (load_dimensions_run _ _ Hload). unfold liftR.
  rewrite in_bounds_list, bool_decide_eq_false_2 by lia. done.
Qed.

Lemma reorder_loop_valid items new_order acc :
  Forall (fun idx => 0 <= idx < Z.of_nat (length items)) new_order ->
  exists reordered,
    reorder_loop (PList items) new_order acc = Ok (Some (acc ++ reordered)) /\
    Forall2 (fun idx d => items !! Z.to_nat idx = Some d) new_order reordered.
Proof.
  intros H. revert acc. induction H as [|idx rest Hidx _ IH]; intros acc; simpl.
  - exists []. by rewrite app_nil_r.
  - rewrite in_bounds_list, bool_decide_eq_true_2 by done. simpl.
    destruct (list_index_in_range items idx Hidx) as (d & Hd & ->). simpl.
    destruct (IH (acc ++ [d])) as (reordered & -> & Hre).
    exists (d :: reordered). split; [by rewrite <- app_assoc|]. by constructor.
Qed.

Lemma reorder_loop_invalid items new_order acc :
  Exists (fun idx => ~ 0 <= idx < Z.of_nat (length items)) new_order ->
  reorder_loop (PList items) new_order acc = Ok None.
Proof.
  intros H. revert acc.
  induction H as [idx rest Hidx|idx rest _ IH]; intros acc; simpl.
  - by rewrite in_bounds_list, bool_decide_eq_false_2.
  - rewrite in_bounds_list. case_bool_decide as Hidx; simpl; [|done].
    destruct (list_index_in_range items idx Hidx) as (d & Hd & ->). simpl.
    apply IH.
Qed.

(** C1: on a collection of [n] records, a [new_order] of length [n] with
    every index in [0 .. n-1] makes [reorder_dimensions] write the
    sequence whose i-th element is the old element at [new_order[i]] and
    return [True]; a [new_order] of another length, or with an index out
    of range, makes it return [False] without writing. *)
Theorem reorder_dimensions_spec (new_order : list Z) (w : world)
    (items : list pyval) :
  fst (load_dimensions w) = Ok (PList items) ->
  let n := length items in
  (length new_order = n ->
   Forall (fun idx => 0 <= idx < Z.of_nat n) new_order ->
   exists reordered,
     reorder_dimensions new_order w = (Ok true, written (PList reordered) w) /\
     Forall2 (fun idx d => items !! Z.to_nat idx = Some d)
             new_order reordered) /\
  (length new_order <> n \/
   Exists (fun idx => ~ 0 <= idx < Z.of_nat n) new_order ->
   reorder_dimensions new_order w = (Ok false, w)).
Proof.
  intros Hload. simpl. unfold reorder_dimensions, bind.
  rewrite (load_dimensions_run _ _ Hload). simpl. split.
  - intros Hlen Hall. rewrite Hlen, Z.eqb_refl. simpl.
    destruct (reorder_loop_valid items new_order [] Hall)
      as (reordered & -> & Hre).
    exists reordered. done.
  - intros Hbad.
    destruct (Z.eqb_spec (Z.of_nat (length new_order)) (Z.of_nat (length items)))
      as [Hlen|Hlen]; simpl; [|done].
    destruct Hbad as [Hne|Hex]; [lia|].
    by rewrite (reorder_loop_invalid items new_order [] Hex).
Qed.

(** ** Groups *)

Lemma ascii_compare_trans a b c :
  Ascii.compare a b = Lt -> Ascii.compare b c = Lt -> Ascii.compare a c = Lt.
Proof.
  unfold Ascii.compare. rewrite !N.compare_lt_iff. lia.
Qed.

Lemma str_lt_trans a b c : str_lt a b -> str_lt b c -> str_lt a c.
Proof.
  unfold str_lt, String.ltb.
  assert (forall a b c, String.compare a b = Lt -> String.compare b c = Lt ->
                        String.compare a c = Lt) as H.
  { clear. induction a as [|x a IH]; intros [|y b] [|z c]; simpl; try done.
    destruct (Ascii.compare x y) eqn:Exy; try done;
      destruct (Ascii.compare y z) eqn:Eyz; try done.
    - apply Ascii.compare_eq_iff in Exy, Eyz. subst.
      rewrite (proj2 (N.compare_eq_iff _ _) eq_refl : Ascii.compare z z = Eq).
      apply IH.
    - apply Ascii.compare_eq_iff in Exy. subst. by rewrite Eyz.
    - apply Ascii.compare_eq_iff in Eyz. subst. by rewrite Exy.
    - by rewrite (ascii_compare_trans _ _ _ Exy Eyz). }
  intros Hab Hbc.
  destruct (String.compare a b) eqn:Eab; try done.
  destruct (String.compare b c) eqn:Ebc; try done.
  by rewrite (H _ _ _ Eab Ebc).
Qed.

Lemma str_lt_total a b : a <> b -> String.ltb a b = false -> str_lt b a.
Proof.
  unfold str_lt, String.ltb. intros Hne.
  rewrite (String.compare_antisym b a).
  destruct (String.compare a b) eqn:E; try done.
  by apply String.compare_eq_iff in E.
Qed.

Lemma list_contains_strings (l : list string) g :
  list_contains (map PStr l) (PStr g) = bool_decide (g ∈ l).
Proof.
  unfold list_contains. induction l as [|x l IH]; simpl.
  - done.
  - rewrite IH. destruct (String.eqb_spec x g) as [->|Hne]; simpl.
    + symmetry. apply bool_decide_eq_true_2. by left.
    + apply bool_decide_ext. rewrite elem_of_cons. split; [by right|].
      by intros [->|?].
Qed.

Lemma py_get_group d :
  string_grouped d ->
  py_get d "group" (PStr "Default") = Ok (PStr (group_of d)).
Proof.
  unfold string_grouped, group_of, group_name. intros [g Hg].
  destruct d as [| | | | | |e]; try done. simpl.
  destruct (dict_get "group" e) as [[]|]; simplify_eq/=; done.
Qed.

(** The set loop of [get_groups] on string groups: no repeats, and the
    groups seen so far together with those of the records. *)
Lemma collect_groups_strings items acc :
  Forall string_grouped items -> NoDup acc ->
  exists acc',
    foldM collect_groups (map PStr acc) items = Ok (map PStr acc') /\
    NoDup acc' /\
    forall g, g ∈ acc' <-> g ∈ acc \/ g ∈ map group_of items.
Proof.
  intros Hitems. revert acc.
  induction Hitems as [|d items Hd _ IH]; intros acc Hacc; cbn [foldM].
  - exists acc. split_and!; [done..|]. intros g. simpl.
    rewrite elem_of_nil. split; [by left|by intros [?|[]]].
  - unfold collect_groups at 1. rewrite (py_get_group d Hd). cbn [rbind].
    unfold py_set_add. cbn [py_hashable]. rewrite list_contains_strings.
    case_bool_decide as Hin; simpl.
    + destruct (IH acc Hacc) as (acc' & -> & Hnd & Hel).
      exists acc'. split_and!; [done..|]. intros g.
      rewrite Hel. simpl. rewrite elem_of_cons.
      split; [intros [?|?]; auto|intros [?|[->|?]]; auto].
    + replace (map PStr acc ++ [PStr (group_of d)])
        with (map PStr (acc ++ [group_of d])) by by rewrite map_app.
      destruct (IH (acc ++ [group_of d])) as (acc' & -> & Hnd & Hel).
      { apply NoDup_app. split_and!; [done| |apply NoDup_singleton].
        intros x Hx ->%list_elem_of_singleton. done. }
      exists acc'. split_and!; [done..|]. intros g.
      rewrite Hel, elem_of_app, list_elem_of_singleton. simpl.
      rewrite elem_of_cons.
      split; [intros [[?|?]|?]; auto|intros [?|[?|?]]; auto].
Qed.

Lemma py_insert_strings x l :
  exists l',
    py_insert (PStr x) (map PStr l) = Ok (map PStr l') /\
    l' ≡ₚ x :: l /\
    (StronglySorted str_lt l -> x ∉ l -> StronglySorted str_lt l').
Proof.
  induction l as [|y l (l' & IH & Hperm & Hsorted)]; simpl.
  - exists [x]. split_and!; [done..|]. intros _ _. repeat constructor.
  - destruct (String.ltb x y) eqn:Hxy.
    + exists (x :: y :: l). split_and!; [done..|].
      intros Hs Hx. constructor; [done|].
      apply StronglySorted_inv in Hs as [_ Hy].
      constructor; [done|]. eapply Forall_impl; [done|].
      intros z Hz. by apply (str_lt_trans x y z).
    + rewrite IH. simpl. exists (y :: l'). split_and!; [done| |].
      * rewrite Hperm. apply perm_swap.
      * intros Hs Hx. apply StronglySorted_inv in Hs as [Hs Hy].
        constructor.
        { apply Hsorted; [done|]. intros Hin. apply Hx. by right. }
        rewrite Hperm. constructor; [|done].
        apply str_lt_total; [|done]. intros ->. apply Hx. by left.
Qed.

Lemma py_sorted_strings l acc :
  NoDup (acc ++ l) -> StronglySorted str_lt acc ->
  exists l',
    foldM (fun acc x => py_insert x acc) (map PStr acc) (map PStr l)
    = Ok (map PStr l') /\
    l' ≡ₚ acc ++ l /\ StronglySorted str_lt l'.
Proof.
  revert acc. induction l as [|x l IH]; intros acc Hnd Hs; simpl.
  - exists acc. by rewrite app_nil_r.
  - destruct (py_insert_strings x acc) as (acc1 & -> & Hperm & Hsorted). simpl.
    destruct (IH acc1) as (l' & -> & Hperm' & Hs').
    + rewrite Hperm. by rewrite <- Permutation_middle in Hnd.
    + apply Hsorted; [done|].
      apply NoDup_app in Hnd as (_ & Hnd & _). intros Hx.
      apply (Hnd x Hx). by left.
    + exists l'. split_and!; [done| |done].
      rewrite Hperm', Hperm. by rewrite <- Permutation_middle.
Qed.

(** C9: on records whose groups are strings, [get_groups] returns the
    group names in strictly increasing order (Python's string order, by
    code point, not order of first use): every group of some record is
    there, nothing else is, and none is repeated; nothing is written. *)
Theorem get_groups_sorted (w : world) (items : list pyval) :
  fst (load_dimensions w) = Ok (PList items) ->
  Forall string_grouped items ->
  exists gs,
    get_groups w = (Ok (PList (map PStr gs)), w) /\
    StronglySorted str_lt gs /\
    NoDup gs /\
    forall g, g ∈ gs <-> exists d, d ∈ items /\ group_of d = g.
Proof.
  intros Hload Hitems.
  destruct (collect_groups_strings items [] Hitems) as (acc & Hacc & Hnd & Hel);
    [constructor|].
  destruct (py_sorted_strings acc []) as (gs & Hgs & Hperm & Hsorted);
    [done|constructor|].
  exists gs. split_and!.
  - unfold get_groups, bind. rewrite (load_dimensions_run _ _ Hload). simpl.
    simpl in Hacc. rewrite Hacc. simpl.
    unfold py_sorted. simpl in Hgs. by rewrite Hgs.
  - done.
  - by rewrite Hperm.
  - intros g. rewrite Hperm. simpl. rewrite Hel, elem_of_nil, list_elem_of_fmap.
    split; [intros [[]|(d & -> & Hd)]; eauto|intros (d & Hd & <-); eauto].
Qed.

Lemma note_group_strings items acc :
  Forall string_grouped items ->
  foldM note_group (map PStr acc) items
  = Ok (map PStr (fold_left note_str (map group_of items) acc)).
Proof.
  intros Hitems. revert acc.
  induction Hitems as [|d items Hd _ IH]; intros acc; cbn [foldM]; [done|].
  unfold note_group at 1. rewrite (py_get_group d Hd). cbn [rbind].
  rewrite list_contains_strings. simpl. unfold note_str at 2.
  case_bool_decide; simpl; [apply IH|].
  rewrite <- IH. by rewrite map_app.
Qed.

Lemma filter_filter_ne (acc : list string) x (l : list string) :
  filter (fun y => y ∉ acc ++ [x]) l
  = filter (fun y => y ∉ acc) (filter (fun y => y <> x) l).
Proof.
  induction l as [|y l IH]; [done|].
  rewrite !filter_cons.
  destruct (decide (y = x)) as [->|Hne].
  - rewrite decide_False; [|intros H; apply H, elem_of_app; right; by left].
    rewrite decide_False by (intros H; by apply H). done.
  - rewrite (decide_True (P := y <> x)) by done. rewrite filter_cons.
    destruct (decide (y ∉ acc)) as [Hy|Hy].
    + rewrite decide_True; [by rewrite IH|].
      rewrite elem_of_app, list_elem_of_singleton. intros H.
      by destruct H as [?|?].
    + rewrite decide_False; [done|].
      rewrite elem_of_app, list_elem_of_singleton. intros H. apply Hy.
      intros Hin. apply H. by left.
Qed.

Lemma note_str_distinct l acc :
  fold_left note_str l acc = acc ++ filter (fun y => y ∉ acc) (distinct l).
Proof.
  revert acc. induction l as [|x l IH]; intros acc; simpl.
  - by rewrite app_nil_r.
  - rewrite IH. unfold note_str. rewrite filter_cons.
    case_bool_decide as Hx.
    + rewrite decide_False by (intros H; by apply H). f_equal.
      rewrite list_filter_filter. apply list_filter_iff.
      intros y. split; [|by intros [? _]].
      intros Hy. split; [done|]. by intros ->.
    + rewrite decide_True by done. rewrite <- app_assoc. simpl. do 2 f_equal.
      apply filter_filter_ne.
Qed.

Lemma filter_all {A} (P : A -> Prop) `{!forall x, Decision (P x)} (l : list A) :
  Forall P l -> filter P l = l.
Proof.
  induction 1 as [|x l Hx _ IH]; [done|].
  by rewrite filter_cons_True, IH.
Qed.

Lemma note_str_nil l : fold_left note_str l [] = distinct l.
Proof.
  rewrite note_str_distinct. simpl. apply filter_all, Forall_forall.
  intros x _. apply not_elem_of_nil.
Qed.

Lemma order_valid_Forall new_order (groups : list pyval) :
  order_valid new_order groups = true <->
  Forall (fun idx => 0 <= idx < Z.of_nat (length groups)) new_order.
Proof.
  unfold order_valid. rewrite forallb_forall, Forall_forall.
  split; intros H idx Hidx.
  - apply list_elem_of_In, H in Hidx.
    apply negb_true_iff, orb_false_iff in Hidx as [?%Z.ltb_ge ?%Z.leb_gt]. lia.
  - apply list_elem_of_In, H in Hidx.
    apply negb_true_iff, orb_false_iff. rewrite Z.ltb_ge, Z.leb_gt. lia.
Qed.

Lemma new_groups_strings (groups : list string) new_order :
  Forall (fun idx => 0 <= idx < Z.of_nat (length groups)) new_order ->
  exists new_groups,
    mapM (list_index (map PStr groups)) new_order = Ok (map PStr new_groups) /\
    Forall2 (fun idx g => groups !! Z.to_nat idx = Some g) new_order new_groups.
Proof.
  induction 1 as [|idx rest Hidx _ (new_groups & IH & Hall)]; simpl.
  - by exists [].
  - destruct (list_index_in_range (map PStr groups) idx) as (d & Hd & ->).
    { by rewrite length_map. }
    rewrite list_lookup_fmap in Hd.
    destruct (groups !! Z.to_nat idx) as [g|] eqn:Hg; simplify_eq/=.
    rewrite IH. simpl. exists (g :: new_groups). split; [done|]. by constructor.
Qed.

Lemma gather_group_strings items acc g :
  Forall string_grouped items ->
  gather_group items acc (PStr g) = Ok (acc ++ members g items).
Proof.
  unfold gather_group, members. intros Hitems. revert acc.
  induction Hitems as [|d items Hd _ IH]; intros acc; cbn [foldM].
  - by rewrite app_nil_r.
  - rewrite (py_get_group d Hd). cbn [rbind py_eqb]. rewrite filter_cons.
    destruct (String.eqb_spec (group_of d) g) as [Heq|Hne].
    + rewrite decide_True by done. rewrite IH. by rewrite <- app_assoc.
    + rewrite decide_False by done. apply IH.
Qed.

Lemma gather_groups_strings items acc new_groups :
  Forall string_grouped items ->
  foldM (gather_group items) acc (map PStr new_groups)
  = Ok (acc ++ concat (map (fun g => members g items) new_groups)).
Proof.
  intros Hitems. revert acc.
  induction new_groups as [|g new_groups IH]; intros acc; simpl.
  - by rewrite app_nil_r.
  - rewrite gather_group_strings by done. simpl. rewrite IH.
    by rewrite <- app_assoc.
Qed.

Lemma first_groups_strings items :
  Forall string_grouped items ->
  foldM note_group [] items = Ok (map PStr (distinct (map group_of items))).
Proof.
  intros Hitems. pose proof (note_group_strings items [] Hitems) as Hnote.
  by rewrite note_str_nil in Hnote.
Qed.

(** A run of [reorder_groups] that passes the three checks. *)
Lemma reorder_groups_valid new_order w items :
  fst (load_dimensions w) = Ok (PList items) ->
  Forall string_grouped items ->
  let G := distinct (map group_of items) in
  items <> [] ->
  length new_order = length G ->
  Forall (fun idx => 0 <= idx < Z.of_nat (length G)) new_order ->
  exists new_groups,
    Forall2 (fun idx g => G !! Z.to_nat idx = Some g) new_order new_groups /\
    reorder_groups new_order w
    = (Ok true,
       written (PList (concat (map (fun g => members g items) new_groups)))
               w).
Proof.
  intros Hload Hitems G Hne Hlen Hall. subst G.
  destruct (new_groups_strings _ _ Hall) as (new_groups & Hpick & Hng).
  exists new_groups. split; [done|].
  unfold reorder_groups, bind. rewrite (load_dimensions_run _ _ Hload).
  cbn [py_truthy]. rewrite bool_decide_eq_false_2 by done. simpl.
  rewrite (first_groups_strings items Hitems). simpl.
  rewrite length_map, Hlen, Nat.eqb_refl. simpl.
  rewrite (proj2 (order_valid_Forall _ _)) by by rewrite length_map. simpl.
  rewrite Hpick. simpl. by rewrite gather_groups_strings.
Qed.

(** C2: on a non-empty collection with string groups, let [G] be the
    distinct groups in order of first occurrence.  A [new_order] as long
    as [G] with every index in range makes [reorder_groups] write, for
    each index in turn, all the records of the group it names, in their
    old relative order, and return [True].  An empty collection, another
    length, or an index out of range makes it return [False] without
    writing. *)
Theorem reorder_groups_spec (new_order : list Z) (w : world)
    (items : list pyval) :
  fst (load_dimensions w) = Ok (PList items) ->
  Forall string_grouped items ->
  let G := distinct (map group_of items) in
  (items <> [] ->
   length new_order = length G ->
   Forall (fun idx => 0 <= idx < Z.of_nat (length G)) new_order ->
   exists new_groups,
     Forall2 (fun idx g => G !! Z.to_nat idx = Some g) new_order new_groups /\
     reorder_groups new_order w
     = (Ok true,
        written (PList (concat (map (fun g => members g items) new_groups)))
                w)) /\
  (items = [] \/ length new_order <> length G \/
   Exists (fun idx => ~ 0 <= idx < Z.of_nat (length G)) new_order ->
   reorder_groups new_order w = (Ok false, w)).
Proof.
  intros Hload Hitems. simpl. split.
  - by apply reorder_groups_valid.
  - intros Hbad. unfold reorder_groups, bind.
    rewrite (load_dimensions_run _ _ Hload). cbn [py_truthy].
    case_bool_decide as Hempty; simpl; [done|].
    rewrite (first_groups_strings items Hitems). simpl.
    rewrite length_map.
    destruct (Nat.eqb_spec (length new_order)
                           (length (distinct (map group_of items))))
      as [Hlen|Hlen]; simpl; [|done].
    destruct (order_valid new_order _) eqn:Hvalid; simpl; [|done].
    apply order_valid_Forall in Hvalid. rewrite length_map in Hvalid.
    destruct Hbad as [?|[?|Hex]]; [done..|].
    apply Exists_exists in Hex as (idx & Hin & Hidx).
    rewrite Forall_forall in Hvalid. destruct Hidx. by apply Hvalid.
Qed.

Lemma distinct_elem_of l x : x ∈ distinct l <-> x ∈ l.
Proof.
  induction l as [|y l IH]; simpl; [done|].
  rewrite !elem_of_cons, list_elem_of_filter, IH.
  destruct (decide (x = y)) as [->|Hne]; [split; auto|].
  split; [intros [?|[_ ?]]; auto|intros [?|?]; auto].
Qed.

Lemma distinct_NoDup l : NoDup (distinct l).
Proof.
  induction l as [|y l IH]; simpl; constructor.
  - rewrite list_elem_of_filter. by intros [? _].
  - by apply NoDup_filter.
Qed.

(** ** Request handlers *)

Lemma zero_product number :
  PrimFloat.eqb number 0 = true ->
  PrimFloat.eqb (number * PrimFloat.sqrt 2) 0 = true.
Proof.
  rewrite FloatAxioms.eqb_spec. intros Hzero.
  rewrite <- (SF2Prim_Prim2SF number).
  destruct (Prim2SF number) as [[]|[]| |[] m e]; vm_compute in Hzero;
    try discriminate; vm_compute; reflexivity.
Qed.

Lemma template_shows (ctx : context) (result : float) :
  ctx_result ctx = Some result -> PrimFloat.eqb result 0 = false ->
  result_shown (template_compute ctx)
  = Some {| blk_number := Shown (ctx_number ctx);
            blk_result := format_2f result;
            blk_sqrt2 := format_2f (ctx_sqrt2 ctx);
            blk_value := Shown (Some result) |}.
Proof.
  intros Hctx Hresult. unfold template_compute. rewrite Hctx.
  cbn [result_shown py_truthy]. by rewrite Hresult.
Qed.

Lemma template_hides (ctx : context) (result number : float) :
  ctx_result ctx = Some result -> ctx_number ctx = Some number ->
  PrimFloat.eqb result 0 = true -> PrimFloat.eqb number 0 = true ->
  template_compute ctx = empty_form.
Proof.
  intros Hresult Hnumber Hr Hn. unfold template_compute.
  rewrite Hresult, Hnumber. cbn [py_truthy]. by rewrite Hr, Hn.
Qed.

(** C8, with its defect.  A POST whose [number] field [float] accepts gives
    the template [result = number * sqrt(2)], and where that product is
    not zero the page shows it with two decimals, 7.07 for the number 5.
    A POST whose [number] field [float] rejects raises nothing and renders
    the empty form: no number in the field and no result block.  The
    defect: for the number 0 the product 0.0 is computed, but the template
    tests [result] and [number] for truth, so the page is the empty form
    again, as for a non-numeric input.  All of it holds whenever the
    stored collection can be listed. *)
Theorem index_computes (req : request) (w : world) (dims groups : pyval)
    (s : string) :
  fst (load_dimensions w) = Ok dims ->
  fst (get_groups w) = Ok groups ->
  method req = "POST"%string ->
  field_get "number" (form req) = Some s ->
  let page result number :=
    {| ctx_result := result; ctx_number := number;
       ctx_sqrt2 := PrimFloat.sqrt 2;
       ctx_dimensions := dims; ctx_groups := groups;
       ctx_open_groups := field_getlist "open" (args req) |} in
  (forall number, float_of_str s = Some number ->
     let result := (number * PrimFloat.sqrt 2)%float in
     let ctx := page (Some result) (Some number) in
     index req w = (Ok (Render ctx), w) /\
     (PrimFloat.eqb result 0 = false ->
      result_shown (template_compute ctx)
      = Some {| blk_number := Shown (Some number);
                blk_result := format_2f result;
                blk_sqrt2 := format_2f (PrimFloat.sqrt 2);
                blk_value := Shown (Some result) |}) /\
     (PrimFloat.eqb number 0 = true -> template_compute ctx = empty_form)) /\
  (float_of_str s = None ->
     index req w = (Ok (Render (page None None)), w) /\
     template_compute (page None None) = empty_form) /\
  format_2f (5 * PrimFloat.sqrt 2) = "7.07"%string /\
  round2 (5 * PrimFloat.sqrt 2)%float = 7.07%float.
Proof.
  intros Hload Hgroups Hpost Hfield. cbv zeta.
  assert (get_groups w = (Ok groups, w)) as Hg.
  { revert Hgroups. unfold get_groups, bind.
    rewrite (load_dimensions_run _ _ Hload). unfold liftR, ret.
    destruct (py_iter dims); simpl; [|done].
    destruct (foldM collect_groups [] a); simpl; [|done].
    destruct (py_sorted a0); simpl; [|done]. by intros [= <-]. }
  assert (forall computed,
    compute (form req) = Ok computed ->
    index req w
    = (Ok (Render {| ctx_result := snd computed; ctx_number := fst computed;
                     ctx_sqrt2 := PrimFloat.sqrt 2;
                     ctx_dimensions := dims; ctx_groups := groups;
                     ctx_open_groups := field_getlist "open" (args req) |}),
       w)) as Hrun.
  { intros computed Hc. unfold index, bind, liftR, ret.
    by rewrite (load_dimensions_run _ _ Hload), Hg, Hpost, Hc. }
  unfold compute in Hrun. rewrite Hfield in Hrun. split_and!.
  - intros number Hnumber. rewrite Hnumber in Hrun. split_and!.
    + exact (Hrun _ eq_refl).
    + intros Hresult.
      exact (template_shows (Context _ _ _ _ _ _) _ eq_refl Hresult).
    + intros Hzero.
      exact (template_hides (Context _ _ _ _ _ _) _ _ eq_refl eq_refl
               (zero_product _ Hzero) Hzero).
  - intros Hnone. rewrite Hnone in Hrun. split; [exact (Hrun _ eq_refl)|done].
  - vm_compute. reflexivity.
  - vm_compute. reflexivity.
Qed.

Lemma missing_or_empty_falsy v :
  missing_or_empty v -> py_truthy (str_or_none v) = false.
Proof. by intros [->| ->]. Qed.

(** C10: a save request whose dimension name or whose value is missing or
    empty adds no record and writes nothing; the handler still answers
    with a redirect to the index view (the index URL, followed by the
    open-group markers when there are any). *)
Theorem save_skips_blank (req : request) (w : world) :
  missing_or_empty (field_get "dimension_name" (form req)) \/
  missing_or_empty (field_get "value" (form req)) ->
  exists open_groups,
    save req w = (Ok (Redirect (with_open_groups url_index open_groups)), w).
Proof.
  intros Hblank. unfold save.
  destruct (chosen_group (form req) _) as [group open_groups].
  exists open_groups. unfold bind, ret.
  destruct Hblank as [H|H]; apply missing_or_empty_falsy in H; rewrite H;
    [done|by rewrite andb_false_r].
Qed.


(** ** In-range operations *)

Lemma normalized_dict d : normalized d -> exists e, d = PDict e.
Proof. intros (e & f & -> & _). by exists e. Qed.

(** With an index in range, [delete_dimension] writes the collection
    without the record at that index; the others keep their order. *)
Theorem delete_dimension_removes (index : Z) (w : world) (items : list pyval) :
  fst (load_dimensions w) = Ok (PList items) ->
  0 <= index < Z.of_nat (length items) ->
  delete_dimension index w
  = (Ok tt, written (PList (delete (Z.to_nat index) items)) w).
Proof.
  intros Hload Hi. unfold delete_dimension, bind.
  rewrite (load_dimensions_run _ _ Hload). unfold liftR.
  rewrite in_bounds_list, bool_decide_eq_true_2 by done. simpl.
  destruct (Z.ltb_spec index 0); [lia|].
  destruct (Z.leb_spec 0 index); [|lia].
  destruct (Z.ltb_spec index (Z.of_nat (length items))); [|lia].
  done.
Qed.

Lemma py_setitem_at_list items index k v e :
  0 <= index < Z.of_nat (length items) ->
  items !! Z.to_nat index = Some (PDict e) ->
  py_setitem_at (PList items) index k v
  = Ok (PList (<[Z.to_nat index := PDict (dict_set k v e)]> items)).
Proof.
  intros Hi He. unfold py_setitem_at.
  destruct (list_index_in_range items index Hi) as (d & Hd & Hidx).
  simpl. rewrite Hidx. simpl. simplify_eq. simpl.
  by destruct (Z.ltb_spec index 0); [lia|].
Qed.

Lemma loaded_item_dict w items index :
  fst (load_dimensions w) = Ok (PList items) ->
  0 <= index < Z.of_nat (length items) ->
  exists e, items !! Z.to_nat index = Some (PDict e).
Proof.
  intros Hload Hi.
  destruct (lookup_lt_is_Some_2 items (Z.to_nat index)) as [d Hd]; [lia|].
  pose proof (load_dimensions_list _ _ Hload) as Hnorm.
  rewrite Forall_forall in Hnorm.
  destruct (normalized_dict d) as [e ->]; [|by exists e].
  apply Hnorm. by eapply list_elem_of_lookup_2.
Qed.

(** With an index in range, [rename_dimension] writes the collection
    with the name of the record at that index replaced and everything
    else as it was. *)
Theorem rename_dimension_renames (index : Z) (new_name : pyval) (w : world)
    (items : list pyval) :
  fst (load_dimensions w) = Ok (PList items) ->
  0 <= index < Z.of_nat (length items) ->
  exists e,
    items !! Z.to_nat index = Some (PDict e) /\
    rename_dimension index new_name w
    = (Ok tt,
       written (PList (<[Z.to_nat index := PDict (dict_set "name" new_name e)]>
                         items)) w).
Proof.
  intros Hload Hi. destruct (loaded_item_dict _ _ _ Hload Hi) as [e He].
  exists e. split; [done|]. unfold rename_dimension, bind.
  rewrite (load_dimensions_run _ _ Hload). unfold liftR.
  rewrite in_bounds_list, bool_decide_eq_true_2 by done.
  by rewrite (py_setitem_at_list _ _ _ _ e).
Qed.

(** With an index in range, [update_dimension_group] writes the
    collection with the group of the record at that index replaced and
    returns [True]. *)
Theorem update_dimension_group_updates (index : Z) (new_group : pyval)
    (w : world) (items : list pyval) :
  fst (load_dimensions w) = Ok (PList items) ->
  0 <= index < Z.of_nat (length items) ->
  exists e,
    items !! Z.to_nat index = Some (PDict e) /\
    update_dimension_group index new_group w
    = (Ok true,
       written (PList (<[Z.to_nat index := PDict (dict_set "group" new_group e)]>
                         items)) w).
Proof.
  intros Hload Hi. destruct (loaded_item_dict _ _ _ Hload Hi) as [e He].
  exists e. split; [done|]. unfold update_dimension_group, bind.
  rewrite (load_dimensions_run _ _ Hload). unfold liftR.
  rewrite in_bounds_list, bool_decide_eq_true_2 by done.
  by rewrite (py_setitem_at_list _ _ _ _ e).
Qed.


(** ** Reordering by a permutation *)

Lemma picked_omap {A} (l : list A) (order : list Z) (picked : list A) :
  Forall2 (fun idx d => l !! Z.to_nat idx = Some d) order picked ->
  picked = omap (fun idx => l !! Z.to_nat idx) order.
Proof.
  induction 1 as [|idx d order picked Hd _ IH]; [done|].
  cbn [omap list_omap]. by rewrite Hd, <- IH.
Qed.

Lemma omap_lookup_seq {A} (pre l : list A) :
  omap (fun idx => (pre ++ l) !! Z.to_nat idx)
       (map Z.of_nat (seq (length pre) (length l))) = l.
Proof.
  revert pre. induction l as [|x l IH]; intros pre; [done|].
  cbn [length seq map omap list_omap].
  rewrite Nat2Z.id, list_lookup_middle by done. f_equal.
  specialize (IH (pre ++ [x])).
  rewrite <- app_assoc, length_app in IH. simpl in IH.
  by rewrite Nat.add_1_r in IH.
Qed.

Lemma picked_permutation {A} (l : list A) (order : list Z) (picked : list A) :
  Forall2 (fun idx d => l !! Z.to_nat idx = Some d) order picked ->
  order ≡ₚ map Z.of_nat (seq 0 (length l)) ->
  picked ≡ₚ l.
Proof.
  intros Hpicked Hperm. rewrite (picked_omap _ _ _ Hpicked), Hperm.
  pose proof (omap_lookup_seq [] l) as Hl. simpl in Hl. by rewrite Hl.
Qed.

Lemma permutation_in_range (order : list Z) n :
  order ≡ₚ map Z.of_nat (seq 0 n) ->
  length order = n /\ Forall (fun idx => 0 <= idx < Z.of_nat n) order.
Proof.
  intros Hperm. split.
  - by rewrite Hperm, length_map, length_seq.
  - rewrite Hperm. apply Forall_forall. intros idx Hidx.
    apply list_elem_of_fmap in Hidx as (i & -> & Hi).
    apply elem_of_seq in Hi. lia.
Qed.

(** When [new_order] is a permutation of [0 .. n-1], the list
    [reorder_dimensions] writes is a permutation of the collection: no
    record is lost and none is repeated. *)
Theorem reorder_dimensions_permutes (new_order : list Z) (w : world)
    (items : list pyval) :
  fst (load_dimensions w) = Ok (PList items) ->
  new_order ≡ₚ map Z.of_nat (seq 0 (length items)) ->
  exists reordered,
    reorder_dimensions new_order w = (Ok true, written (PList reordered) w) /\
    reordered ≡ₚ items.
Proof.
  intros Hload Hperm.
  destruct (permutation_in_range _ _ Hperm) as [Hlen Hall].
  destruct (reorder_loop_valid items new_order [] Hall)
    as (reordered & Hloop & Hre).
  exists reordered. split; [|by eapply picked_permutation].
  unfold reorder_dimensions, bind.
  rewrite (load_dimensions_run _ _ Hload). simpl.
  by rewrite Hlen, Z.eqb_refl, Hloop.
Qed.

Lemma concat_members_cons x items (G : list string) :
  NoDup G -> group_of x ∈ G ->
  concat (map (fun g => members g (x :: items)) G)
  ≡ₚ x :: concat (map (fun g => members g items) G).
Proof.
  unfold members. induction 1 as [|g G Hg _ IH]; intros Hin.
  - by apply elem_of_nil in Hin.
  - cbn [map concat]. rewrite filter_cons.
    destruct (decide (group_of x = g)) as [Heq|Hne].
    + simpl. do 2 f_equiv.
      assert (Forall (fun g' => group_of x <> g') G) as Hother.
      { apply Forall_forall. intros g' Hg' Hx. apply Hg. by rewrite <- Heq, Hx. }
      clear -Hother. induction Hother as [|g' G Hg' _ IH]; [done|].
      cbn [map concat]. by rewrite filter_cons_False, IH.
    + apply elem_of_cons in Hin as [?|Hin]; [done|].
      rewrite (IH Hin). by rewrite Permutation_middle.
Qed.

Lemma concat_members_all items (G : list string) :
  NoDup G -> Forall (fun d => group_of d ∈ G) items ->
  concat (map (fun g => members g items) G) ≡ₚ items.
Proof.
  intros HG. induction 1 as [|x items Hx _ IH].
  - unfold members. induction G as [|g G IHG]; [done|].
    apply NoDup_cons in HG as [_ HG]. by apply IHG.
  - by rewrite concat_members_cons, IH.
Qed.

Lemma concat_members_perm items (G G' : list string) :
  G ≡ₚ G' ->
  concat (map (fun g => members g items) G)
  ≡ₚ concat (map (fun g => members g items) G').
Proof.
  induction 1 as [|g G G' _ IH|g g' G|G G' G'' _ IH _ IH'].
  - done.
  - simpl. by rewrite IH.
  - simpl. rewrite !app_assoc. f_equiv. apply app_Permutation_comm.
  - by rewrite IH.
Qed.


(** When [new_order] is a permutation of the group indices, the list
    [reorder_groups] writes is a permutation of the collection: every
    record is kept, once. *)
Theorem reorder_groups_permutes (new_order : list Z) (w : world)
    (items : list pyval) :
  fst (load_dimensions w) = Ok (PList items) ->
  Forall string_grouped items ->
  items <> [] ->
  new_order
  ≡ₚ map Z.of_nat (seq 0 (length (distinct (map group_of items)))) ->
  exists reordered,
    reorder_groups new_order w = (Ok true, written (PList reordered) w) /\
    reordered ≡ₚ items.
Proof.
  intros Hload Hitems Hne Hperm.
  destruct (permutation_in_range _ _ Hperm) as [Hlen Hall].
  destruct (reorder_groups_valid new_order w items Hload Hitems Hne Hlen Hall)
    as (new_groups & Hpick & Hrun).
  eexists. split; [exact Hrun|].
  rewrite (concat_members_perm items new_groups
             (distinct (map group_of items))).
  - apply concat_members_all; [apply distinct_NoDup|].
    apply Forall_forall. intros d Hd.
    apply distinct_elem_of, list_elem_of_fmap. eauto.
  - by eapply picked_permutation.
Qed.


(** ** The reorder operations on any value *)

Lemma load_cases w :
  (exists e, load_dimensions w = (Raise e, w)) \/
  load_dimensions w = (Ok (PStr ""), w) \/
  (exists items,
     load_dimensions w = (Ok (PList items), w) /\ Forall normalized items).
Proof.
  pose proof (load_dimensions_world w) as Hw.
  destruct (load_dimensions w) as [[dims|e] w'] eqn:Hload; simpl in Hw; subst w'.
  - destruct (load_dimensions_shape w dims) as [(items & -> & Hn)|[-> _]].
    + by rewrite Hload.
    + right. right. eauto.
    + right. by left.
  - left. eauto.
Qed.

Lemma le_int_int z idx : le_int z (PInt idx) = Ok (z <=? idx).
Proof.
  unfold le_int, num_leb. simpl.
  destruct (Z.leb_spec z idx), (Z.compare_spec z idx); (done || lia).
Qed.

Lemma lt_int_int idx z : lt_int (PInt idx) z = Ok (idx <? z).
Proof.
  unfold lt_int, num_ltb. simpl.
  destruct (Z.ltb_spec idx z), (Z.compare_spec idx z); (done || lia).
Qed.

Lemma ge_int_int idx z : ge_int (PInt idx) z = Ok (z <=? idx).
Proof. apply le_int_int. Qed.

Lemma in_bounds_py_int idx dims :
  len_of dims = py_len dims ->
  in_bounds_py (PInt idx) dims = in_bounds idx dims.
Proof.
  intros Hlen. unfold in_bounds_py, in_bounds. rewrite le_int_int. simpl.
  destruct (0 <=? idx); [|done]. rewrite Hlen.
  destruct (py_len dims); simpl; [apply lt_int_int|done].
Qed.

Lemma reorder_loop_py_int dims new_order acc :
  len_of dims = py_len dims ->
  (forall idx, py_subscript dims (PInt idx) = py_index dims idx) ->
  reorder_loop_py dims (map PInt new_order) acc
  = reorder_loop dims new_order acc.
Proof.
  intros Hlen Hsub. revert acc.
  induction new_order as [|idx rest IH]; intros acc;
    cbn [map reorder_loop_py reorder_loop]; [done|].
  rewrite (in_bounds_py_int _ _ Hlen), Hsub.
  destruct (in_bounds idx dims) as [[]|]; simpl; try done.
  destruct (py_index dims idx); simpl; [apply IH|done].
Qed.

Lemma order_valid_py_int new_order (n : nat) (groups : list pyval) :
  length groups = n ->
  order_valid_py (map PInt new_order) (Z.of_nat n)
  = Ok (order_valid new_order groups).
Proof.
  intros <-. unfold order_valid.
  induction new_order as [|idx rest IH]; cbn [map order_valid_py forallb];
    [done|].
  rewrite lt_int_int. cbn [rbind]. rewrite ge_int_int. cbn [rbind].
  destruct (idx <? 0); [done|].
  destruct (Z.of_nat (length groups) <=? idx); [done|apply IH].
Qed.

Lemma mapM_ext_map {A B C} (f : B -> result C) (g : A -> B) l :
  mapM f (map g l) = mapM (fun x => f (g x)) l.
Proof. induction l as [|x l IH]; simpl; [done|]. by rewrite IH. Qed.

(** A list of ints for [new_order] makes the any-value functions run as
    [reorder_dimensions] and [reorder_groups] do. *)
Lemma reorder_py_on_ints (new_order : list Z) (w : world) :
  reorder_dimensions_py (PList (map PInt new_order)) w
  = reorder_dimensions new_order w /\
  reorder_groups_py (PList (map PInt new_order)) w
  = reorder_groups new_order w.
Proof.
  split.
  - unfold reorder_dimensions_py, reorder_dimensions, bind, liftR.
    destruct (load_cases w) as [[e ->]|[->|(items & -> & _)]]; [done|..];
      simpl; rewrite length_map;
      rewrite reorder_loop_py_int by done; done.
  - unfold reorder_groups_py, reorder_groups, bind, liftR.
    destruct (load_cases w) as [[e ->]|[->|(items & -> & _)]]; [done..|].
    cbn [py_truthy]. destruct (negb (negb (bool_decide (items = []))));
      [done|]. simpl.
    destruct (foldM note_group [] items) as [groups|]; simpl; [|done].
    rewrite length_map.
    replace (Z.of_nat (length new_order) =? Z.of_nat (length groups))
      with (length new_order =? length groups)%nat.
    2:{ destruct (Nat.eqb_spec (length new_order) (length groups)),
          (Z.eqb_spec (Z.of_nat (length new_order)) (Z.of_nat (length groups)));
          (done || lia). }
    destruct (length new_order =? length groups)%nat; simpl; [|done].
    rewrite (order_valid_py_int _ _ groups eq_refl). simpl.
    destruct (order_valid new_order groups); simpl; [|done].
    by rewrite mapM_ext_map.
Qed.

(** ** What the operations do to the store *)

Lemma rewritten_normalized w items :
  Forall normalized items -> kept_or_rewritten w (written (PList items) w).
Proof.
  intros Hitems. right. exists items. split; [done|].
  by apply load_normalized_document.
Qed.

Lemma normalized_set e k v :
  k <> "value"%string -> normalized (PDict e) ->
  normalized (PDict (dict_set k v e)).
Proof.
  intros Hk (e' & f & [= <-] & Hv & Hg). exists (dict_set k v e), f.
  split; [done|]. split; [by rewrite dict_get_set_ne|].
  destruct (String.eqb_spec k "group") as [->|Hne].
  - rewrite dict_get_set_eq. eauto.
  - by rewrite dict_get_set_ne.
Qed.

Lemma list_index_elem_of l idx d : list_index l idx = Ok d -> d ∈ l.
Proof.
  unfold list_index.
  destruct ((if idx <? 0 then _ else _) <? 0); [done|].
  destruct (l !! _) as [d'|] eqn:Hd; [|done].
  intros [= <-]. by eapply list_elem_of_lookup_2.
Qed.

Lemma py_setitem_at_normalized items index k v dims' :
  k <> "value"%string -> Forall normalized items ->
  py_setitem_at (PList items) index k v = Ok dims' ->
  exists items', dims' = PList items' /\ Forall normalized items'.
Proof.
  intros Hk Hitems. unfold py_setitem_at. simpl.
  destruct (list_index items index) as [d|] eqn:Hd; simpl; [|done].
  pose proof (list_index_elem_of _ _ _ Hd) as Hin.
  rewrite Forall_forall in Hitems. pose proof (Hitems d Hin) as Hn.
  destruct (normalized_dict d Hn) as [e ->]. simpl. intros [= <-].
  eexists. split; [done|]. apply Forall_insert.
  - by apply Forall_forall.
  - by apply normalized_set.
Qed.

Lemma py_pop_normalized items index dims' :
  Forall normalized items -> py_pop (PList items) index = Ok dims' ->
  exists items', dims' = PList items' /\ Forall normalized items'.
Proof.
  intros Hitems. simpl. destruct (_ && _); [|done]. intros [= <-].
  eexists. split; [done|]. by apply Forall_delete.
Qed.

Lemma in_bounds_empty_str index : in_bounds index (PStr "") = Ok false.
Proof.
  unfold in_bounds. simpl. destruct (0 <=? index) eqn:H0; [|done].
  f_equal. apply Z.ltb_ge. by apply Z.leb_le.
Qed.

Lemma list_subscript_elem_of l idx d : list_subscript l idx = Ok d -> d ∈ l.
Proof. destruct idx; simpl; try done; apply list_index_elem_of. Qed.

Lemma reorder_loop_py_Forall (P : pyval -> Prop) dims idxs acc r :
  (forall idx d, py_subscript dims idx = Ok d -> P d) ->
  Forall P acc ->
  reorder_loop_py dims idxs acc = Ok (Some r) -> Forall P r.
Proof.
  intros Hsub. revert acc.
  induction idxs as [|idx rest IH]; intros acc Hacc; simpl.
  - by intros [= <-].
  - destruct (in_bounds_py idx dims) as [[]|]; simpl; try done.
    destruct (py_subscript dims idx) as [d|] eqn:Hd; simpl; [|done].
    apply IH. apply Forall_app. split; [done|]. repeat constructor. eauto.
Qed.

Lemma gather_group_Forall (P : pyval -> Prop) items acc group r :
  Forall P items -> Forall P acc ->
  gather_group items acc group = Ok r -> Forall P r.
Proof.
  unfold gather_group. intros Hitems. revert acc.
  induction Hitems as [|d items Hd _ IH]; intros acc Hacc; simpl.
  - by intros [= <-].
  - destruct (py_get d "group" (PStr "Default")) as [g|]; simpl; [|done].
    apply IH. destruct (py_eqb g group); [|done].
    apply Forall_app. split; [done|]. by repeat constructor.
Qed.

Lemma gather_groups_Forall (P : pyval -> Prop) items acc groups r :
  Forall P items -> Forall P acc ->
  foldM (gather_group items) acc groups = Ok r -> Forall P r.
Proof.
  intros Hitems. revert acc.
  induction groups as [|g groups IH]; intros acc Hacc; simpl.
  - by intros [= <-].
  - destruct (gather_group items acc g) as [acc'|] eqn:Hg; simpl; [|done].
    apply IH. exact (gather_group_Forall P items acc g acc' Hitems Hacc Hg).
Qed.

Ltac run_load w :=
  let e := fresh "e" in
  let items := fresh "items" in
  let Hitems := fresh "Hitems" in
  destruct (load_cases w) as [[e ->]|[->|(items & -> & Hitems)]].

Lemma add_dimension_transactional name value group :
  transactional (add_dimension name value group).
Proof.
  intros w. unfold add_dimension, bind, liftR. run_load w; try done.
  simpl. destruct (py_float value) as [f|]; simpl; [|done].
  apply rewritten_normalized, Forall_app. split; [done|].
  repeat constructor. eexists _, _. split; [done|]. simpl. eauto.
Qed.

Lemma delete_dimension_transactional index :
  transactional (delete_dimension index).
Proof.
  intros w. unfold delete_dimension, bind, liftR. run_load w; try done.
  - rewrite in_bounds_empty_str. by left.
  - rewrite in_bounds_list. case_bool_decide; [|by left].
    destruct (py_pop (PList items) index) as [dims'|] eqn:Hpop; [|done].
    destruct (py_pop_normalized _ _ _ Hitems Hpop) as (items' & -> & Hn).
    by apply rewritten_normalized.
Qed.

Lemma setitem_transactional {A} index k v (a : A) :
  k <> "value"%string ->
  transactional
    (let! dimensions := load_dimensions in
     let! ok := liftR (in_bounds index dimensions) in
     if ok then
       let! dimensions' := liftR (py_setitem_at dimensions index k v) in
       let! _ := save_dimensions dimensions' in
       ret a
     else ret a).
Proof.
  intros Hk w. unfold bind, liftR. run_load w; try done.
  - rewrite in_bounds_empty_str. by left.
  - rewrite in_bounds_list. case_bool_decide; [|by left].
    destruct (py_setitem_at (PList items) index k v) as [dims'|] eqn:Hset;
      [|done].
    destruct (py_setitem_at_normalized _ _ _ _ _ Hk Hitems Hset)
      as (items' & -> & Hn).
    by apply rewritten_normalized.
Qed.

Lemma rename_dimension_transactional index new_name :
  transactional (rename_dimension index new_name).
Proof.
  intros w. pose proof (setitem_transactional index "name" new_name tt) as H.
  specialize (H ltac:(done) w). revert H.
  unfold rename_dimension, bind, liftR, ret, save_dimensions.
  destruct (load_dimensions w) as [[dims|] w1]; [|done].
  destruct (in_bounds index dims) as [[]|]; try done.
Qed.

Lemma update_dimension_group_transactional index new_group :
  transactional (update_dimension_group index new_group).
Proof.
  intros w.
  pose proof (setitem_transactional index "group" new_group true) as H.
  pose proof (setitem_transactional index "group" new_group false) as H'.
  specialize (H ltac:(done) w). specialize (H' ltac:(done) w). revert H H'.
  unfold update_dimension_group, bind, liftR, ret, save_dimensions.
  destruct (load_dimensions w) as [[dims|] w1]; [|done].
  destruct (in_bounds index dims) as [[]|]; try done.
Qed.

Lemma subscript_loaded items idx d :
  Forall normalized items ->
  py_subscript (PList items) idx = Ok d -> normalized d.
Proof.
  intros Hitems Hd. apply list_subscript_elem_of in Hd.
  rewrite Forall_forall in Hitems. by apply Hitems.
Qed.

Lemma subscript_empty_str idx d : py_subscript (PStr "") idx = Ok d -> False.
Proof. intros Hd. apply list_subscript_elem_of in Hd. by apply elem_of_nil in Hd. Qed.

Lemma reorder_dimensions_py_transactional new_order :
  transactional (reorder_dimensions_py new_order).
Proof.
  intros w. unfold reorder_dimensions_py, bind, liftR. run_load w; try done.
  - destruct (len_of new_order) as [m|]; [|done]. simpl.
    destruct (negb (m =? _)); [by left|].
    destruct (items_of new_order) as [idxs|]; [|done].
    destruct (reorder_loop_py (PStr "") idxs []) as [[r|]|] eqn:Hloop;
      [|by left|done].
    apply rewritten_normalized.
    eapply (reorder_loop_py_Forall normalized); [|constructor|done].
    intros idx d Hd. by destruct (subscript_empty_str idx d).
  - destruct (len_of new_order) as [m|]; [|done]. simpl.
    destruct (negb (m =? _)); [by left|].
    destruct (items_of new_order) as [idxs|]; [|done].
    destruct (reorder_loop_py (PList items) idxs []) as [[r|]|] eqn:Hloop;
      [|by left|done].
    apply rewritten_normalized.
    eapply (reorder_loop_py_Forall normalized); [|constructor|done].
    intros idx d. by apply subscript_loaded.
Qed.

Lemma reorder_groups_py_transactional new_order :
  transactional (reorder_groups_py new_order).
Proof.
  intros w. unfold reorder_groups_py, bind, liftR. run_load w; try done.
  - by left.
  - cbn [py_truthy py_iter]. destruct (negb (negb _)); [by left|].
    destruct (foldM note_group [] items) as [groups|]; [|done].
    destruct (len_of new_order) as [m|]; [|done].
    destruct (negb (m =? _)); [by left|].
    destruct (items_of new_order) as [idxs|]; [|done].
    destruct (order_valid_py idxs _) as [[]|]; [|by left|done]. simpl.
    destruct (mapM (list_subscript groups) idxs) as [new_groups|]; [|done].
    destruct (foldM (gather_group items) [] new_groups) as [r|] eqn:Hr;
      [|done].
    apply rewritten_normalized.
    eapply (gather_groups_Forall normalized); [done|constructor|done].
Qed.

Lemma reorder_dimensions_transactional new_order :
  transactional (reorder_dimensions new_order).
Proof.
  intros w. rewrite <- (proj1 (reorder_py_on_ints new_order w)).
  apply reorder_dimensions_py_transactional.
Qed.

Lemma reorder_groups_transactional new_order :
  transactional (reorder_groups new_order).
Proof.
  intros w. rewrite <- (proj2 (reorder_py_on_ints new_order w)).
  apply reorder_groups_py_transactional.
Qed.

(** Every operation on the store, called as the request handlers call it
    (names and groups are strings, the value is anything), decides before
    it writes: it writes at most once; what it hands to [json.dump] is a
    list of records that loads back exactly as written; and when it raises,
    it has not opened the file for writing.  This holds for every file
    content.  The write itself is taken to complete: what is written is
    made of loaded records, strings and floats, which [json.dump] accepts,
    and a write cut short by an I/O error is outside this model. *)
Theorem operations_transactional :
  (forall (name : string) (value : pyval) (group : option string),
     transactional (add_dimension (PStr name) value (PStr <$> group))) /\
  (forall index, transactional (delete_dimension index)) /\
  (forall index (new_name : string),
     transactional (rename_dimension index (PStr new_name))) /\
  (forall index (new_group : string),
     transactional (update_dimension_group index (PStr new_group))) /\
  (forall new_order, transactional (reorder_dimensions new_order)) /\
  (forall new_order, transactional (reorder_groups new_order)).
Proof.
  split_and!.
  - intros name value group. apply add_dimension_transactional.
  - apply delete_dimension_transactional.
  - intros index new_name. apply rename_dimension_transactional.
  - intros index new_group. apply update_dimension_group_transactional.
  - apply reorder_dimensions_transactional.
  - apply reorder_groups_transactional.
Qed.

(** ** The JSON routes *)

Lemma has_order_dict d :
  has_order (PDict d) = Ok (bool_decide (is_Some (dict_get "order" d))).
Proof.
  unfold has_order. cbn [py_truthy py_contains].
  case_bool_decide as Hd; simpl; [|done]. by subst d.
Qed.

(** The route [reorder].  A body that is null or an object without
    ['order'] is answered with [success: false] and the store is not even
    read.  A body whose ['order'] is a list of ints is answered with what
    [reorder_dimensions] returns for that list, after what it does to the
    store.  Whatever the body holds, the route is all-or-nothing on the
    store. *)
Theorem reorder_route_spec :
  (forall w, reorder PNone w = (Ok (success_body false), w)) /\
  (forall d w, dict_get "order" d = None ->
     reorder (PDict d) w = (Ok (success_body false), w)) /\
  (forall d new_order w,
     dict_get "order" d = Some (PList (map PInt new_order)) ->
     reorder (PDict d) w
     = match reorder_dimensions new_order w with
       | (Ok success, w') => (Ok (success_body success), w')
       | (Raise e, w') => (Raise e, w')
       end) /\
  (forall data, transactional (reorder data)).
Proof.
  split_and!.
  - done.
  - intros d w Hd. unfold reorder, bind, liftR.
    by rewrite has_order_dict, Hd.
  - intros d new_order w Hd. unfold reorder, bind, liftR.
    rewrite has_order_dict, Hd. cbn [py_getitem]. rewrite Hd.
    rewrite bool_decide_eq_true_2 by eauto. cbv beta iota.
    rewrite (proj1 (reorder_py_on_ints new_order w)).
    by destruct (reorder_dimensions new_order w) as [[]].
  - intros data w. unfold reorder, bind, liftR.
    destruct (has_order data) as [[]|]; [|by left|done].
    destruct (py_getitem data "order") as [order|]; [|done].
    pose proof (reorder_dimensions_py_transactional order w) as H.
    by destruct (reorder_dimensions_py order w) as [[]].
Qed.

(** The route [reorder_groups]: as [reorder], with [reorder_groups]. *)
Theorem reorder_groups_route_spec :
  (forall w, reorder_groups_route PNone w = (Ok (success_body false), w)) /\
  (forall d w, dict_get "order" d = None ->
     reorder_groups_route (PDict d) w = (Ok (success_body false), w)) /\
  (forall d new_order w,
     dict_get "order" d = Some (PList (map PInt new_order)) ->
     reorder_groups_route (PDict d) w
     = match reorder_groups new_order w with
       | (Ok success, w') => (Ok (success_body success), w')
       | (Raise e, w') => (Raise e, w')
       end) /\
  (forall data, transactional (reorder_groups_route data)).
Proof.
  split_and!.
  - done.
  - intros d w Hd. unfold reorder_groups_route, bind, liftR.
    by rewrite has_order_dict, Hd.
  - intros d new_order w Hd. unfold reorder_groups_route, bind, liftR.
    rewrite has_order_dict, Hd. cbn [py_getitem]. rewrite Hd.
    rewrite bool_decide_eq_true_2 by eauto. cbv beta iota.
    rewrite (proj2 (reorder_py_on_ints new_order w)).
    by destruct (reorder_groups new_order w) as [[]].
  - intros data w. unfold reorder_groups_route, bind, liftR.
    destruct (has_order data) as [[]|]; [|by left|done].
    destruct (py_getitem data "order") as [order|]; [|done].
    pose proof (reorder_groups_py_transactional order w) as H.
    by destruct (reorder_groups_py order w) as [[]].
Qed.


(** ** The form routes *)

Lemma add_dimension_run name value group w items f :
  fst (load_dimensions w) = Ok (PList items) ->
  py_float value = Ok f ->
  add_dimension name value group w
  = (Ok tt,
     written (PList (items ++ [dimension name (round2 f)
                                 (default (PStr "Default") group)])) w).
Proof.
  intros Hload Hf. unfold add_dimension, bind.
  rewrite (load_dimensions_run _ _ Hload). simpl. by rewrite Hf.
Qed.

Lemma add_dimension_raise name value group w items e :
  fst (load_dimensions w) = Ok (PList items) ->
  py_float value = Raise e ->
  add_dimension name value group w = (Raise e, w).
Proof.
  intros Hload Hf. unfold add_dimension, bind.
  rewrite (load_dimensions_run _ _ Hload). simpl. by rewrite Hf.
Qed.

Lemma in_bounds_in index items :
  0 <= index < Z.of_nat (length items) ->
  in_bounds index (PList items) = Ok true.
Proof. intros. by rewrite in_bounds_list, bool_decide_eq_true_2. Qed.

Lemma in_bounds_out index items :
  index < 0 \/ Z.of_nat (length items) <= index ->
  in_bounds index (PList items) = Ok false.
Proof. intros. rewrite in_bounds_list, bool_decide_eq_false_2; [done|lia]. Qed.

Lemma delete_dimension_in_range index w items :
  fst (load_dimensions w) = Ok (PList items) ->
  0 <= index < Z.of_nat (length items) ->
  delete_dimension index w
  = (Ok tt, written (PList (delete (Z.to_nat index) items)) w).
Proof.
  intros Hload Hi. unfold delete_dimension, bind.
  rewrite (load_dimensions_run _ _ Hload). unfold liftR.
  rewrite in_bounds_in by done. simpl.
  destruct (Z.ltb_spec index 0); [lia|].
  destruct (Z.leb_spec 0 index); [|lia].
  destruct (Z.ltb_spec index (Z.of_nat (length items))); [|lia].
  done.
Qed.

Lemma delete_dimension_skip index w items :
  fst (load_dimensions w) = Ok (PList items) ->
  index < 0 \/ Z.of_nat (length items) <= index ->
  delete_dimension index w = (Ok tt, w).
Proof.
  intros Hload Hi. unfold delete_dimension, bind.
  rewrite (load_dimensions_run _ _ Hload). unfold liftR.
  by rewrite in_bounds_out.
Qed.

Lemma rename_dimension_in_range index new_name w items e :
  fst (load_dimensions w) = Ok (PList items) ->
  0 <= index < Z.of_nat (length items) ->
  items !! Z.to_nat index = Some (PDict e) ->
  rename_dimension index new_name w
  = (Ok tt,
     written (PList (<[Z.to_nat index := PDict (dict_set "name" new_name e)]>
                       items)) w).
Proof.
  intros Hload Hi He. unfold rename_dimension, bind.
  rewrite (load_dimensions_run _ _ Hload). unfold liftR.
  rewrite in_bounds_in by done.
  by rewrite (py_setitem_at_list _ _ _ _ e).
Qed.

Lemma rename_dimension_skip index new_name w items :
  fst (load_dimensions w) = Ok (PList items) ->
  index < 0 \/ Z.of_nat (length items) <= index ->
  rename_dimension index new_name w = (Ok tt, w).
Proof.
  intros Hload Hi. unfold rename_dimension, bind.
  rewrite (load_dimensions_run _ _ Hload). unfold liftR.
  by rewrite in_bounds_out.
Qed.



Lemma truthy_str s : s <> ""%string -> py_truthy (PStr s) = true.
Proof. intros Hs. simpl. by destruct (String.eqb_spec s ""). Qed.

(** A run of [save] that reaches [add_dimension]. *)
Lemma save_run (req : request) (w : world) (items : list pyval)
    (name s : string) (f : float) :
  fst (load_dimensions w) = Ok (PList items) ->
  field_get "dimension_name" (form req) = Some name -> name <> ""%string ->
  field_get "value" (form req) = Some s -> s <> ""%string ->
  float_of_str s = Some f ->
  let selected :=
    chosen_group (form req) (field_getlist "open_groups" (form req)) in
  save req w
  = (Ok (Redirect (with_open_groups url_index (snd selected))),
     written (PList (items ++ [dimension (PStr name) (round2 f)
                                 (PStr (fst selected))])) w).
Proof.
  intros Hload Hname Hn Hvalue Hs Hf. simpl. unfold save.
  destruct (chosen_group _ _) as [group open_groups]. unfold bind.
  rewrite Hname, Hvalue. cbn [str_or_none].
  rewrite !truthy_str by done. cbn [andb].
  rewrite (add_dimension_run _ _ _ _ items f); [done..|].
  simpl. by rewrite Hf.
Qed.

(** [save] with a name and a value that [float] accepts appends one
    record: the name as sent, the value rounded to two decimals, and the
    group.  The group is the [group] field as sent, "Default" when there
    is none; when the field is ['new'] it is the [new_group] field
    stripped, or "Default" when that is missing, empty or blank.  The
    redirect carries the open markers as sent, followed by the slug of a
    group that was entered as new. *)
Theorem save_adds_record (req : request) (w : world) (items : list pyval)
    (name s : string) (f : float) :
  fst (load_dimensions w) = Ok (PList items) ->
  field_get "dimension_name" (form req) = Some name -> name <> ""%string ->
  field_get "value" (form req) = Some s -> s <> ""%string ->
  float_of_str s = Some f ->
  let sent := field_getlist "open_groups" (form req) in
  let saved (group : string) (markers : list string) :=
    save req w
    = (Ok (Redirect (with_open_groups url_index markers)),
       written (PList (items ++ [PDict [("name"%string, PStr name);
                                        ("value"%string, PFloat (round2 f));
                                        ("group"%string, PStr group)]])) w) in
  (field_get "group" (form req) = None -> saved "Default"%string sent) /\
  (forall g, field_get "group" (form req) = Some g -> g <> "new"%string ->
     saved g sent) /\
  (field_get "group" (form req) = Some "new"%string ->
   (forall new_group,
      field_get "new_group" (form req) = Some new_group ->
      new_group <> ""%string -> str_strip new_group <> ""%string ->
      saved (str_strip new_group)
            (sent ++ [group_slug (str_strip new_group)])) /\
   (missing_or_empty (field_get "new_group" (form req)) \/
    (exists new_group, field_get "new_group" (form req) = Some new_group /\
                       str_strip new_group = ""%string) ->
    saved "Default"%string sent)).
Proof.
  intros Hload Hname Hn Hvalue Hs Hf.
  pose proof (save_run req w items name s f Hload Hname Hn Hvalue Hs Hf)
    as Hrun.
  cbv zeta in Hrun. cbv zeta. unfold chosen_group in Hrun. split_and!.
  - intros Hg. by rewrite Hg in Hrun.
  - intros g Hg Hnew. rewrite Hg in Hrun. cbn [default from_option id] in Hrun.
    by destruct (String.eqb_spec g "new").
  - intros Hg. rewrite Hg in Hrun. cbn [default from_option id] in Hrun.
    rewrite String.eqb_refl in Hrun. split.
    + intros new_group Hng Hne Hstrip. rewrite Hng in Hrun.
      destruct (String.eqb_spec new_group ""); [done|].
      by destruct (String.eqb_spec (str_strip new_group) "").
    + intros [[Hng|Hng]|(new_group & Hng & Hstrip)]; rewrite Hng in Hrun;
        [done..|].
      rewrite Hstrip in Hrun. simpl in Hrun.
      by rewrite andb_false_r in Hrun.
Qed.

(** [save] with a name and a value that [float] rejects raises
    [ValueError]: the request fails and nothing is written. *)
Theorem save_rejects_non_numeric (req : request) (w : world)
    (items : list pyval) (name s : string) :
  fst (load_dimensions w) = Ok (PList items) ->
  field_get "dimension_name" (form req) = Some name -> name <> ""%string ->
  field_get "value" (form req) = Some s -> s <> ""%string ->
  float_of_str s = None ->
  save req w = (Raise ValueError, w).
Proof.
  intros Hload Hname Hn Hvalue Hs Hf. unfold save.
  destruct (chosen_group _ _) as [group open_groups]. unfold bind.
  rewrite Hname, Hvalue. cbn [str_or_none].
  rewrite !truthy_str by done. cbn [andb].
  rewrite (add_dimension_raise _ _ _ _ items ValueError); [done..|].
  simpl. by rewrite Hf.
Qed.

(** [rename_route]: a missing or empty new name, or an index out of
    range, changes nothing; a name with an index in range replaces the
    name of that record.  The redirect carries the markers as sent. *)
Theorem rename_route_spec (index : Z) (req : request) (w : world)
    (items : list pyval) :
  fst (load_dimensions w) = Ok (PList items) ->
  let back :=
    Redirect (with_open_groups url_index
                (field_getlist "open_groups" (form req))) in
  (missing_or_empty (field_get "new_name" (form req)) ->
   rename_route index req w = (Ok back, w)) /\
  (forall name, field_get "new_name" (form req) = Some name ->
     name <> ""%string ->
     (index < 0 \/ Z.of_nat (length items) <= index ->
      rename_route index req w = (Ok back, w)) /\
     (0 <= index < Z.of_nat (length items) ->
      exists e,
        items !! Z.to_nat index = Some (PDict e) /\
        rename_route index req w
        = (Ok back,
           written (PList (<[Z.to_nat index :=
                               PDict (dict_set "name" (PStr name) e)]> items))
                   w))).
Proof.
  intros Hload. simpl. unfold rename_route, bind. split.
  - intros Hblank. by rewrite (missing_or_empty_falsy _ Hblank).
  - intros name Hname Hn. rewrite Hname. cbn [str_or_none].
    rewrite truthy_str by done. split.
    + intros Hi. by rewrite (rename_dimension_skip _ _ _ items).
    + intros Hi. destruct (loaded_item_dict _ _ _ Hload Hi) as [e He].
      exists e. split; [done|].
      by rewrite (rename_dimension_in_range _ _ _ items e).
Qed.

Lemma py_index_in_range items index :
  0 <= index < Z.of_nat (length items) ->
  exists d, items !! Z.to_nat index = Some d /\
            py_index (PList items) index = Ok d.
Proof. apply list_index_in_range. Qed.

(** The first half of [delete_route]: the group of the record to go. *)
Lemma delete_route_run index req w items e :
  fst (load_dimensions w) = Ok (PList items) ->
  0 <= index < Z.of_nat (length items) ->
  items !! Z.to_nat index = Some (PDict e) ->
  let group := default (PStr "Default") (dict_get "group" e) in
  let w' := written (PList (delete (Z.to_nat index) items)) w in
  delete_route index req w
  = (if py_truthy group then
       match py_group_slug group with
       | Ok slug =>
           (Ok (Redirect (with_open_groups url_index
                            (open_once (field_getlist "open" (args req)) slug))),
            w')
       | Raise err => (Raise err, w')
       end
     else
       (Ok (Redirect (with_open_groups url_index
                        (field_getlist "open" (args req)))), w')).
Proof.
  intros Hload Hi He. simpl. unfold delete_route, bind.
  rewrite (load_dimensions_run _ _ Hload). unfold liftR at 1.
  rewrite in_bounds_in by done.
  destruct (py_index_in_range items index Hi) as (d & Hd & Hidx).
  simplify_eq. unfold liftR at 1. rewrite Hidx. cbn [rbind py_get].
  rewrite (delete_dimension_in_range _ _ items) by done.
  destruct (py_truthy _); [|done]. unfold liftR.
  by destruct (py_group_slug _).
Qed.

(** [delete_route]: an index out of range changes nothing and the
    redirect carries the markers as sent.  An index in range, on a record
    whose group is a string, removes that record; the redirect then also
    carries the marker of its group, unless the group is empty or the
    marker is there already. *)
Theorem delete_route_spec (index : Z) (req : request) (w : world)
    (items : list pyval) :
  fst (load_dimensions w) = Ok (PList items) ->
  let sent := field_getlist "open" (args req) in
  (index < 0 \/ Z.of_nat (length items) <= index ->
   delete_route index req w
   = (Ok (Redirect (with_open_groups url_index sent)), w)) /\
  (forall d g,
     0 <= index < Z.of_nat (length items) ->
     items !! Z.to_nat index = Some d -> group_name d = Some g ->
     delete_route index req w
     = (Ok (Redirect (with_open_groups url_index
                        (if String.eqb g "" then sent
                         else open_once sent (group_slug g)))),
        written (PList (delete (Z.to_nat index) items)) w)).
Proof.
  intros Hload. simpl. split.
  - intros Hi. unfold delete_route, bind.
    rewrite (load_dimensions_run _ _ Hload). unfold liftR.
    rewrite in_bounds_out by done. unfold ret.
    by rewrite (delete_dimension_skip _ _ items).
  - intros d g Hi Hd Hg. unfold group_name in Hg.
    destruct d as [| | | | | |e]; try done.
    destruct (dict_get "group" e) as [[| | | |g'| |]|] eqn:Hgroup; try done.
    simplify_eq. rewrite (delete_route_run _ _ _ items e) by done.
    rewrite Hgroup. simpl. by destruct (String.eqb g "").
Qed.

(** [delete_route] on a record whose group is not a string but counts as
    true (a number other than zero, a non-empty list or object): the
    record is removed and written, and only then the route raises
    [AttributeError]. *)
Theorem delete_route_fails_late (index : Z) (req : request) (w : world)
    (items : list pyval) (e : list (string * pyval)) (g : pyval) :
  fst (load_dimensions w) = Ok (PList items) ->
  0 <= index < Z.of_nat (length items) ->
  items !! Z.to_nat index = Some (PDict e) ->
  dict_get "group" e = Some g ->
  (forall s, g <> PStr s) -> py_truthy g = true ->
  delete_route index req w
  = (Raise AttributeError,
     written (PList (delete (Z.to_nat index) items)) w).
Proof.
  intros Hload Hi He Hg Hstr Htrue.
  rewrite (delete_route_run _ _ _ items e) by done.
  rewrite Hg. simpl. rewrite Htrue.
  destruct g; try done. by destruct (Hstr s).
Qed.


Lemma open_once_NoDup sent slug : NoDup sent -> NoDup (open_once sent slug).
Proof.
  intros Hsent. unfold open_once. case_bool_decide as Hin; [done|].
  apply NoDup_app. split_and!; [done| |apply NoDup_singleton].
  intros x Hx ->%list_elem_of_singleton. done.
Qed.

Lemma open_once_prefix sent slug : sent `prefix_of` open_once sent slug.
Proof.
  unfold open_once. case_bool_decide; [done|]. by apply prefix_app_r.
Qed.

Lemma chosen_group_once_markers fields sent :
  let markers := snd (chosen_group_once fields sent) in
  sent `prefix_of` markers /\ (NoDup sent -> NoDup markers).
Proof.
  simpl. unfold chosen_group_once.
  destruct (String.eqb _ "new"); [|done].
  destruct (field_get "new_group" fields) as [ng|]; [|done].
  destruct (_ && _); [|done]. simpl.
  split; [apply open_once_prefix|apply open_once_NoDup].
Qed.

(** The markers in the redirect of [delete_route], [update_group] and
    [add_group] start with the markers that were sent and are free of
    repeats when those were: each of the three adds a marker only where it
    is missing. *)
Theorem markers_added_once (index : Z) (req : request) (w w' : world)
    (url : string) :
  (delete_route index req w = (Ok (Redirect url), w') ->
   exists markers,
     url = with_open_groups url_index markers /\
     field_getlist "open" (args req) `prefix_of` markers /\
     (NoDup (field_getlist "open" (args req)) -> NoDup markers)) /\
  (update_group index req w = (Ok (Redirect url), w') \/
   add_group req w = (Ok (Redirect url), w') ->
   exists markers,
     url = with_open_groups url_index markers /\
     field_getlist "open_groups" (form req) `prefix_of` markers /\
     (NoDup (field_getlist "open_groups" (form req)) -> NoDup markers)).
Proof.
  split.
  - unfold delete_route, bind, liftR, ret.
    destruct (load_dimensions w) as [[dims|] w1]; [|done].
    destruct (in_bounds index dims) as [[]|]; [| |done].
    + destruct (let* d := py_index dims index in _) as [group|]; [|done].
      destruct (delete_dimension index w1) as [[]]; [|done].
      destruct (py_truthy group).
      * destruct (py_group_slug group) as [slug|]; [|done].
        intros [= <- <-]. eexists. split; [done|].
        split; [apply open_once_prefix|apply open_once_NoDup].
      * intros [= <- <-]. eexists. by split.
    + destruct (delete_dimension index w1) as [[]]; [|done].
      simpl. intros [= <- <-]. eexists. by split.
  - pose proof (chosen_group_once_markers (form req)
                  (field_getlist "open_groups" (form req))) as Hsel.
    simpl in Hsel. intros [Hrun|Hrun]; revert Hrun.
    + unfold update_group.
      destruct (chosen_group_once _ _) as [group markers]. simpl in Hsel.
      unfold bind, ret.
      destruct (py_truthy (PStr group)).
      * destruct (update_dimension_group _ _ w) as [[]]; [|done].
        intros [= <- <-]. by exists markers.
      * intros [= <- <-]. by exists markers.
    + unfold add_group, bind, liftR, ret.
      destruct (py_truthy _).
      * destruct (py_group_slug _) as [slug|]; [|done].
        intros [= <- <-]. eexists. split; [done|].
        split; [apply open_once_prefix|apply open_once_NoDup].
      * intros [= <- <-]. eexists. by split.
Qed.


(** ** What [load_dimensions] rejects *)

Lemma mapM_raise_at {A B} (f : A -> result B) pre pre' x post err :
  mapM f pre = Ok pre' -> f x = Raise err ->
  mapM f (pre ++ x :: post) = Raise err.
Proof.
  revert pre'. induction pre as [|y pre IH]; intros pre'; simpl.
  - intros _ ->. done.
  - destruct (f y); simpl; [|done].
    destruct (mapM f pre) as [l|] eqn:El; simpl; [|done].
    intros _ Hx. by rewrite (IH l).
Qed.

(** An array item is not defaulted when it has no ['value'] or is no
    object at all: after items that load, an object without ['value']
    makes [load_dimensions] raise [KeyError], and an item that is not an
    object makes it raise [TypeError].  So does a document that is neither
    an array nor an object, the empty string apart. *)
Theorem load_rejects (n : nat) :
  (forall pre d post,
     Forall normalized pre ->
     let w := World (Some (Document (PList (pre ++ d :: post)))) n in
     ((exists e, d = PDict e /\ dict_get "value" e = None) ->
      load_dimensions w = (Raise KeyError, w)) /\
     ((forall e, d <> PDict e) -> load_dimensions w = (Raise TypeError, w))) /\
  (forall data,
     (forall items, data <> PList items) ->
     (forall entries, data <> PDict entries) ->
     data <> PStr "" ->
     let w := World (Some (Document data)) n in
     load_dimensions w = (Raise TypeError, w)).
Proof.
  split.
  - intros pre d post Hpre. simpl.
    assert (mapM normalize_item pre = Ok pre) as Hrun.
    { apply mapM_fixed. eapply Forall_impl; [done|]. apply normalize_item_fixed. }
    split.
    + intros (e & -> & Hv). rewrite load_array.
      rewrite (mapM_raise_at _ pre pre _ _ KeyError); [done..|].
      unfold normalize_item. simpl. by rewrite Hv.
    + intros Hd. rewrite load_array.
      rewrite (mapM_raise_at _ pre pre _ _ TypeError); [done..|].
      destruct d as [| | | | | |e]; try done. by destruct (Hd e).
  - intros data Hlist Hdict Hstr. simpl.
    destruct data as [| | | |s|items|entries]; try done.
    + destruct s as [|c s]; [done|]. reflexivity.
    + by destruct (Hlist items).
    + by destruct (Hdict entries).
Qed.

(** ** What never writes *)

(** [get_groups], the index page and [add_group] leave the store as it
    is, whatever the request and also when they raise. *)
Theorem listing_never_writes (req : request) (w : world) :
  snd (get_groups w) = w /\ snd (index req w) = w /\ snd (add_group req w) = w.
Proof.
  assert (snd (get_groups w) = w) as Hgroups.
  { unfold get_groups, bind, liftR, ret.
    pose proof (load_dimensions_world w) as Hw.
    destruct (load_dimensions w) as [[dims|] w']; simpl in Hw; subst w'; [|done].
    destruct (py_iter dims) as [items|]; [|done].
    destruct (foldM collect_groups [] items) as [groups|]; [|done].
    by destruct (py_sorted groups). }
  split; [done|]. split.
  - unfold index, bind, ret.
    pose proof (load_dimensions_world w) as Hw.
    destruct (load_dimensions w) as [[dims|] w']; simpl in Hw; subst w'; [|done].
    destruct (get_groups w) as [[groups|] w']; simpl in Hgroups; subst w';
      [|done].
    destruct (String.eqb _ _); [|done].
    unfold liftR. by destruct (compute _).
  - unfold add_group, bind, liftR, ret.
    destruct (py_truthy _); [|done]. by destruct (py_group_slug _).
Qed.

(** ** A group that is no string *)

Lemma collect_groups_unhashable items groups :
  Forall normalized items ->
  Exists (fun d => exists e g, d = PDict e /\ dict_get "group" e = Some g /\
                               py_hashable g = false) items ->
  foldM collect_groups groups items = Raise TypeError.
Proof.
  intros Hitems Hex.
  assert (forall e g groups, dict_get "group" e = Some g ->
            collect_groups groups (PDict e) = py_set_add groups g) as Hstep.
  { intros e g acc Hg. unfold collect_groups. simpl. by rewrite Hg. }
  revert groups.
  induction Hex as [d items (e & g & -> & Hg & Hhash)|d items _ IH];
    intros groups; cbn [foldM].
  - rewrite (Hstep e g) by done. unfold py_set_add. by rewrite Hhash.
  - apply Forall_cons in Hitems as [(e & f & -> & _ & [g Hg]) Hitems].
    rewrite (Hstep e g) by done.
    unfold py_set_add. destruct (py_hashable g); cbn [rbind]; [|done].
    by apply IH.
Qed.

(** One stored record whose group is an array or an object makes
    [get_groups], and with it the index page, raise [TypeError]: a set
    cannot hold such a group. *)
Theorem unhashable_group_breaks_listing (req : request) (w : world)
    (items : list pyval) :
  fst (load_dimensions w) = Ok (PList items) ->
  Exists (fun d => exists e g, d = PDict e /\ dict_get "group" e = Some g /\
                               py_hashable g = false) items ->
  get_groups w = (Raise TypeError, w) /\ index req w = (Raise TypeError, w).
Proof.
  intros Hload Hex.
  assert (get_groups w = (Raise TypeError, w)) as Hgroups.
  { unfold get_groups, bind. rewrite (load_dimensions_run _ _ Hload).
    unfold liftR. simpl.
    by rewrite collect_groups_unhashable
      by eauto using load_dimensions_list. }
  split; [done|].
  unfold index, bind. rewrite (load_dimensions_run _ _ Hload).
  by rewrite Hgroups.
Qed.

(** ** Operations one after the other *)

Lemma normalized_dimension name f group : normalized (dimension name f group).
Proof.
  eexists _, f. split; [reflexivity|]. split; [reflexivity|]. simpl. eauto.
Qed.

(** Adding a record and then deleting the last one leaves the collection
    as it was: the second write holds the records that were loaded at the
    start, and they load back unchanged. *)
Theorem add_then_delete_last (name value : pyval) (group : option pyval)
    (w : world) (items : list pyval) (f : float) :
  fst (load_dimensions w) = Ok (PList items) ->
  py_float value = Ok f ->
  exists w1 w2,
    add_dimension name value group w = (Ok tt, w1) /\
    delete_dimension (Z.of_nat (length items)) w1 = (Ok tt, w2) /\
    w2 = written (PList items) w1 /\
    load_dimensions w2 = (Ok (PList items), w2).
Proof.
  intros Hload Hf. pose proof (load_dimensions_list _ _ Hload) as Hitems.
  eexists _, _.
  split; [exact (add_dimension_run name value group w items f Hload Hf)|].
  set (d := dimension name (round2 f) (default (PStr "Default") group)).
  assert (Forall normalized (items ++ [d])) as Hall.
  { apply Forall_app. split; [done|]. constructor; [|done].
    apply normalized_dimension. }
  assert (delete (Z.to_nat (Z.of_nat (length items))) (items ++ [d]) = items)
    as Hdel.
  { rewrite Nat2Z.id. clear. induction items as [|x l IH]; simpl; [done|].
    by rewrite IH. }
  split; [|split; [reflexivity|]].
  - rewrite (delete_dimension_in_range _ _ (items ++ [d])).
    + by rewrite Hdel.
    + unfold written. by rewrite load_normalized_document.
    + rewrite length_app. simpl. lia.
  - unfold written. by rewrite load_normalized_document.
Qed.

Lemma reorder_dimensions_run new_order w items :
  fst (load_dimensions w) = Ok (PList items) ->
  length new_order = length items ->
  Forall (fun idx => 0 <= idx < Z.of_nat (length items)) new_order ->
  exists reordered,
    reorder_dimensions new_order w = (Ok true, written (PList reordered) w) /\
    Forall2 (fun idx d => items !! Z.to_nat idx = Some d) new_order reordered.
Proof.
  intros Hload Hlen Hall. unfold reorder_dimensions, bind.
  rewrite (load_dimensions_run _ _ Hload). simpl.
  rewrite Hlen, Z.eqb_refl. simpl.
  destruct (reorder_loop_valid items new_order [] Hall)
    as (reordered & -> & Hre).
  by exists reordered.
Qed.

(** A reorder is undone by the inverse order: when [q] names, for every
    position [j], a place of [p] that holds [j], reordering by [p] and
    then by [q] writes the collection as it was at the start. *)
Theorem reorder_dimensions_undo (p q : list Z) (w : world)
    (items : list pyval) :
  fst (load_dimensions w) = Ok (PList items) ->
  length p = length items ->
  Forall (fun idx => 0 <= idx < Z.of_nat (length items)) p ->
  Forall2 (fun j idx => 0 <= idx /\ p !! Z.to_nat idx = Some (Z.of_nat j))
          (seq 0 (length items)) q ->
  exists w1,
    reorder_dimensions p w = (Ok true, w1) /\
    reorder_dimensions q w1 = (Ok true, written (PList items) w1).
Proof.
  intros Hload Hlen Hp Hq.
  pose proof (load_dimensions_list _ _ Hload) as Hitems.
  destruct (reorder_dimensions_run p w items Hload Hlen Hp)
    as (picked & Hrun & Hpicked).
  exists (written (PList picked) w). split; [done|].
  assert (Forall normalized picked) as Hnorm.
  { apply Forall_forall. intros d Hd.
    apply list_elem_of_lookup in Hd as [i Hi].
    destruct (Forall2_lookup_r _ _ _ _ _ Hpicked Hi) as (idx & _ & Hidx).
    rewrite Forall_forall in Hitems. apply Hitems.
    by eapply list_elem_of_lookup_2. }
  assert (length picked = length items) as Hlen1.
  { by rewrite <- (Forall2_length _ _ _ Hpicked). }
  assert (length q = length picked) as Hlenq.
  { rewrite <- (Forall2_length _ _ _ Hq), length_seq. done. }
  destruct (reorder_dimensions_run q (written (PList picked) w) picked)
    as (back & Hrun2 & Hback).
  - unfold written. by rewrite load_normalized_document.
  - done.
  - apply Forall_forall. intros idx Hidx.
    apply list_elem_of_lookup in Hidx as [j Hj].
    destruct (Forall2_lookup_r _ _ _ _ _ Hq Hj) as (j' & _ & Hpos & Hpj).
    apply lookup_lt_Some in Hpj. lia.
  - rewrite Hrun2. do 3 f_equal.
    apply list_eq_same_length with (length items); [done| |].
    { rewrite <- (Forall2_length _ _ _ Hback). lia. }
    intros j x y Hj Hx Hy.
    destruct (Forall2_lookup_r _ _ _ _ _ Hback Hx) as (idx & Hidx & Hd).
    destruct (Forall2_lookup_r _ _ _ _ _ Hq Hidx) as (j' & Hj' & _ & Hpj).
    apply lookup_seq in Hj' as [-> _]. simpl in Hpj.
    destruct (Forall2_lookup_l _ _ _ _ _ Hpicked Hpj) as (d & Hd' & Hit).
    rewrite Nat2Z.id in Hit. congruence.
Qed.

Lemma distinct_skip g l :
  filter (fun y => y <> g) (distinct (g :: l))
  = filter (fun y => y <> g) (distinct l).
Proof.
  simpl. rewrite filter_cons, decide_False by (intros H; by apply H).
  rewrite list_filter_filter. apply list_filter_iff. intros y.
  split; [by intros [? _]|done].
Qed.

Lemma distinct_run g k l :
  distinct (replicate (S k) g ++ l) = g :: filter (fun y => y <> g) (distinct l).
Proof.
  induction k as [|k IH]; [done|].
  change (replicate (S (S k)) g ++ l) with (g :: (replicate (S k) g ++ l)).
  cbn [distinct]. rewrite IH. f_equal.
  rewrite filter_cons, decide_False by (intros H; by apply H).
  rewrite list_filter_filter. apply list_filter_iff. intros y.
  split; [by intros [? _]|done].
Qed.

Lemma members_groups g items :
  map group_of (members g items) = replicate (length (members g items)) g.
Proof.
  unfold members. induction items as [|d items IH]; [done|].
  rewrite filter_cons. destruct (decide (group_of d = g)) as [Hd|]; [|done].
  simpl. by rewrite Hd, IH.
Qed.

Lemma members_some g items :
  g ∈ map group_of items -> members g items <> [].
Proof.
  intros (d & -> & Hd)%list_elem_of_fmap Hnil.
  assert (d ∈ members (group_of d) items) as Hin.
  { apply list_elem_of_filter. done. }
  rewrite Hnil in Hin. by apply elem_of_nil in Hin.
Qed.

Lemma distinct_gathered items (G : list string) :
  NoDup G -> Forall (fun g => g ∈ map group_of items) G ->
  distinct (map group_of (concat (map (fun g => members g items) G))) = G.
Proof.
  induction 1 as [|g G Hg _ IH]; [done|].
  intros [Hin HG]%Forall_cons. simpl.
  rewrite map_app, members_groups.
  pose proof (members_some g items Hin) as Hsome.
  destruct (members g items) as [|d rest]; [done|]. simpl length.
  rewrite distinct_run, IH by done. f_equal.
  apply filter_all. apply Forall_forall. by intros y Hy ->.
Qed.

(** After [reorder_groups] with a permutation of the group indices, the
    groups come in the requested order: the distinct groups of the written
    collection, in order of first occurrence, are the old groups picked by
    [new_order]. *)
Theorem reorder_groups_orders_groups (new_order : list Z) (w : world)
    (items : list pyval) :
  fst (load_dimensions w) = Ok (PList items) ->
  Forall string_grouped items ->
  items <> [] ->
  let G := distinct (map group_of items) in
  new_order ≡ₚ map Z.of_nat (seq 0 (length G)) ->
  exists reordered,
    reorder_groups new_order w = (Ok true, written (PList reordered) w) /\
    Forall2 (fun idx g => G !! Z.to_nat idx = Some g)
            new_order (distinct (map group_of reordered)).
Proof.
  intros Hload Hitems Hne G Hperm.
  destruct (permutation_in_range _ _ Hperm) as [Hlen Hall].
  destruct (reorder_groups_valid new_order w items Hload Hitems Hne Hlen Hall)
    as (new_groups & Hpick & Hrun).
  eexists. split; [exact Hrun|].
  pose proof (picked_permutation _ _ _ Hpick Hperm) as HG.
  rewrite distinct_gathered; [done| |].
  - rewrite HG. apply distinct_NoDup.
  - apply Forall_forall. intros g Hg. rewrite HG in Hg.
    exact (proj1 (distinct_elem_of _ _) Hg).
Qed.

End Program.

(** * Concrete runs

    Each theorem above that has hypotheses is applied here to the sample
    data, with [decimal_float_of_str], [ascii_strip] and [ascii_lower]
    standing for the string built-ins. *)

Lemma save_load_roundtrip_sample :
  Forall valid_record [head; arm; leg; eye] /\
  let w' :=
    snd (save_dimensions (PList [head; arm; leg; eye]) (World None 0)) in
  load_dimensions decimal_float_of_str w'
  = (Ok (PList [head; arm; leg; eye]), w').
Proof.
  assert (Forall valid_record [head; arm; leg; eye]) as H.
  { repeat constructor; eexists _, _, _, _;
      (split; [reflexivity|]); simpl; repeat split; discriminate. }
  split; [exact H|].
  exact (save_load_roundtrip decimal_float_of_str _ (World None 0) H).
Defined.

Lemma add_dimension_appends_sample :
  fst (load_dimensions decimal_float_of_str sample_world)
  = Ok (PList [head; arm; leg; eye]) /\
  py_float decimal_float_of_str (PStr "3.14159") = Ok 3.14159%float /\
  let record :=
    PDict [("name", PStr "X"); ("value", PFloat 3.14); ("group", PStr "G")]%string in
  let w' := written (PList ([head; arm; leg; eye] ++ [record])) sample_world in
  add_dimension decimal_float_of_str (PStr "X") (PStr "3.14159") (Some (PStr "G"))
    sample_world = (Ok tt, w') /\
  load_dimensions decimal_float_of_str w'
  = (Ok (PList ([head; arm; leg; eye] ++ [record])), w').
Proof.
  split; [reflexivity|]. split; [reflexivity|].
  exact (add_dimension_appends decimal_float_of_str (PStr "X") (PStr "3.14159")
           (Some (PStr "G")) sample_world [head; arm; leg; eye] 3.14159%float
           eq_refl eq_refl).
Defined.

Lemma out_of_bounds_ignored_sample :
  fst (load_dimensions decimal_float_of_str sample_world)
  = Ok (PList [head; arm; leg; eye]) /\
  delete_dimension decimal_float_of_str 4 sample_world
  = (Ok tt, sample_world) /\
  rename_dimension decimal_float_of_str 4 (PStr "Foot") sample_world
  = (Ok tt, sample_world) /\
  update_dimension_group decimal_float_of_str 4 (PStr "G3") sample_world
  = (Ok false, sample_world).
Proof.
  split; [reflexivity|].
  apply (out_of_bounds_ignored decimal_float_of_str 4 (PStr "Foot") (PStr "G3")
           sample_world [head; arm; leg; eye] eq_refl).
  right. simpl. lia.
Defined.

Lemma reorder_dimensions_sample :
  let w := World (Some (Document (PList [head; arm; leg]))) 0 in
  fst (load_dimensions decimal_float_of_str w) = Ok (PList [head; arm; leg]) /\
  (exists reordered,
     reorder_dimensions decimal_float_of_str [2; 0; 1] w
     = (Ok true, written (PList reordered) w) /\
     Forall2 (fun idx d => [head; arm; leg] !! Z.to_nat idx = Some d)
             [2; 0; 1] reordered) /\
  reorder_dimensions decimal_float_of_str [2; 0] w = (Ok false, w) /\
  reorder_dimensions decimal_float_of_str [2; 0; 1] w
  = (Ok true, written (PList [leg; head; arm]) w).
Proof.
  pose proof (reorder_dimensions_spec decimal_float_of_str [2; 0; 1]
                (World (Some (Document (PList [head; arm; leg]))) 0)
                [head; arm; leg] eq_refl) as [Hvalid _].
  pose proof (reorder_dimensions_spec decimal_float_of_str [2; 0]
                (World (Some (Document (PList [head; arm; leg]))) 0)
                [head; arm; leg] eq_refl) as [_ Hinvalid].
  split; [reflexivity|]. split; [|split; [|reflexivity]].
  - apply Hvalid; [reflexivity|]. repeat constructor; simpl; lia.
  - apply Hinvalid. left. simpl. lia.
Defined.

Lemma reorder_groups_sample :
  fst (load_dimensions decimal_float_of_str sample_world)
  = Ok (PList [head; arm; leg; eye]) /\
  Forall string_grouped [head; arm; leg; eye] /\
  distinct (map group_of [head; arm; leg; eye])
  = ["Default"; "G1"; "G2"]%string /\
  (exists new_groups,
     Forall2 (fun idx g =>
                ["Default"; "G1"; "G2"]%string !! Z.to_nat idx = Some g)
             [1; 0; 2] new_groups /\
     reorder_groups decimal_float_of_str [1; 0; 2] sample_world
     = (Ok true,
        written (PList (concat (map (fun g => members g [head; arm; leg; eye])
                                    new_groups))) sample_world)) /\
  reorder_groups decimal_float_of_str [1; 0; 3] sample_world
  = (Ok false, sample_world) /\
  reorder_groups decimal_float_of_str [1; 0; 2] sample_world
  = (Ok true, written (PList [arm; head; leg; eye]) sample_world).
Proof.
  assert (Forall string_grouped [head; arm; leg; eye]) as Hg.
  { repeat constructor; eexists; reflexivity. }
  pose proof (reorder_groups_spec decimal_float_of_str [1; 0; 2] sample_world
                [head; arm; leg; eye] eq_refl Hg) as [Hvalid _].
  pose proof (reorder_groups_spec decimal_float_of_str [1; 0; 3] sample_world
                [head; arm; leg; eye] eq_refl Hg) as [_ Hinvalid].
  split; [reflexivity|]. split; [exact Hg|]. split; [reflexivity|].
  split; [|split; [|reflexivity]].
  - apply Hvalid; [discriminate|reflexivity|]. repeat constructor; simpl; lia.
  - apply Hinvalid. right. right.
    do 2 apply Exists_cons_tl. apply Exists_cons_hd. simpl. lia.
Defined.

Lemma get_groups_sorted_sample :
  let w := World (Some (Document (PList [eye; arm; head; leg]))) 0 in
  fst (load_dimensions decimal_float_of_str w)
  = Ok (PList [eye; arm; head; leg]) /\
  Forall string_grouped [eye; arm; head; leg] /\
  distinct (map group_of [eye; arm; head; leg])
  = ["G2"; "G1"; "Default"]%string /\
  get_groups decimal_float_of_str w
  = (Ok (PList [PStr "Default"; PStr "G1"; PStr "G2"]), w) /\
  exists gs,
    get_groups decimal_float_of_str w = (Ok (PList (map PStr gs)), w) /\
    StronglySorted str_lt gs /\
    NoDup gs /\
    forall g, g ∈ gs <-> exists d, d ∈ [eye; arm; head; leg] /\ group_of d = g.
Proof.
  assert (Forall string_grouped [eye; arm; head; leg]) as Hg.
  { repeat constructor; eexists; reflexivity. }
  split; [reflexivity|]. split; [exact Hg|].
  split; [reflexivity|]. split; [reflexivity|].
  exact (get_groups_sorted decimal_float_of_str
           (World (Some (Document (PList [eye; arm; head; leg]))) 0)
           [eye; arm; head; leg] eq_refl Hg).
Defined.

Lemma index_computes_sample :
  let post number :=
    Request "POST" [("number"%string, number)] [("open", "g1")]%string in
  let page result number :=
    {| ctx_result := result; ctx_number := number;
       ctx_sqrt2 := PrimFloat.sqrt 2;
       ctx_dimensions := PList [head; arm; leg; eye];
       ctx_groups := PList [PStr "Default"; PStr "G1"; PStr "G2"];
       ctx_open_groups := ["g1"%string] |} in
  fst (load_dimensions decimal_float_of_str sample_world)
  = Ok (PList [head; arm; leg; eye]) /\
  fst (get_groups decimal_float_of_str sample_world)
  = Ok (PList [PStr "Default"; PStr "G1"; PStr "G2"]) /\
  decimal_float_of_str "5" = Some 5%float /\
  decimal_float_of_str "0" = Some 0%float /\
  decimal_float_of_str "abc" = None /\
  (let ctx := page (Some 7.0710678118654755%float) (Some 5%float) in
   index decimal_float_of_str (post "5"%string) sample_world
   = (Ok (Render ctx), sample_world) /\
   result_shown (template_compute ctx)
   = Some {| blk_number := Shown (Some 5%float);
             blk_result := "7.07";
             blk_sqrt2 := "1.41";
             blk_value := Shown (Some 7.0710678118654755%float) |}) /\
  (let ctx := page (Some 0%float) (Some 0%float) in
   index decimal_float_of_str (post "0"%string) sample_world
   = (Ok (Render ctx), sample_world) /\
   template_compute ctx = empty_form) /\
  (index decimal_float_of_str (post "abc"%string) sample_world
   = (Ok (Render (page None None)), sample_world) /\
   template_compute (page None None) = empty_form).
Proof.
  pose proof (fun s =>
    index_computes decimal_float_of_str
      (Request "POST" [("number"%string, s)] [("open", "g1")]%string)
      sample_world (PList [head; arm; leg; eye])
      (PList [PStr "Default"; PStr "G1"; PStr "G2"]) s
      eq_refl eq_refl eq_refl eq_refl) as Hindex.
  do 5 (split; [reflexivity|]). split; [|split].
  - destruct (Hindex "5"%string) as [Hnumber _].
    destruct (Hnumber 5%float eq_refl) as (Hrun & Hshown & _).
    split; [exact Hrun|]. exact (Hshown eq_refl).
  - destruct (Hindex "0"%string) as [Hnumber _].
    destruct (Hnumber 0%float eq_refl) as (Hrun & _ & Hhidden).
    split; [exact Hrun|]. exact (Hhidden eq_refl).
  - destruct (Hindex "abc"%string) as (_ & Hreject & _).
    exact (Hreject eq_refl).
Defined.

Lemma save_skips_blank_sample :
  let req := Request "POST"
               [("dimension_name", "Head"); ("value", ""); ("group", "new");
                ("new_group", " My Group "); ("open_groups", "g1")]%string [] in
  missing_or_empty (field_get "value" (form req)) /\
  exists open_groups,
    save decimal_float_of_str ascii_strip ascii_lower req sample_world
    = (Ok (Redirect (with_open_groups url_index open_groups)), sample_world).
Proof.
  split; [by right|].
  apply (save_skips_blank decimal_float_of_str ascii_strip ascii_lower).
  right. by right.
Defined.

Lemma load_legacy_records_sample :
  Forall (fun kv => ~ overflows decimal_float_of_str (snd kv))
         [("Head"%string, PInt 20); ("Arm"%string, PStr "about 7");
          ("Leg"%string, PNone)] /\
  load_dimensions decimal_float_of_str legacy_world
  = (Ok (PList
           [PDict [("name", PStr "Head"); ("value", PFloat 20);
                   ("group", PStr "Default")];
            PDict [("name", PStr "Arm"); ("value", PFloat 0);
                   ("group", PStr "Default")];
            PDict [("name", PStr "Leg"); ("value", PFloat 0);
                   ("group", PStr "Default")]]%string),
     legacy_world) /\
  let w := World (Some (Document (PDict [("Head"%string, PInt 20)]))) 0 in
  load_dimensions decimal_float_of_str w
  = (Ok (PList [PDict [("name", PStr "Head"); ("value", PFloat 20);
                       ("group", PStr "Default")]%string]), w).
Proof.
  assert (Forall (fun kv => ~ overflows decimal_float_of_str (snd kv))
            [("Head"%string, PInt 20); ("Arm"%string, PStr "about 7");
             ("Leg"%string, PNone)]) as H.
  { repeat constructor; discriminate. }
  split; [exact H|]. split; [|reflexivity].
  exact (load_legacy_records decimal_float_of_str _ 0%nat H).
Defined.

Lemma load_array_records_sample :
  let dicts :=
    [[("name", PStr "A"); ("value", PInt 3)];
     [("value", PStr "about 7"); ("group", PStr "G1")]]%string in
  Forall (has_value decimal_float_of_str) dicts /\
  let w := World (Some (Document (PList (map PDict dicts)))) 0 in
  load_dimensions decimal_float_of_str w
  = (Ok (PList [PDict [("name", PStr "A"); ("value", PFloat 3);
                       ("group", PStr "Default")]%string;
                PDict [("value", PFloat 0); ("group", PStr "G1")]%string]), w).
Proof.
  assert (Forall (has_value decimal_float_of_str)
            [[("name", PStr "A"); ("value", PInt 3)];
             [("value", PStr "about 7"); ("group", PStr "G1")]]%string) as H.
  { repeat constructor; eexists; (split; [reflexivity|discriminate]). }
  split; [exact H|].
  exact (load_array_records decimal_float_of_str _ 0%nat H).
Defined.

Lemma delete_dimension_removes_sample :
  fst (load_dimensions decimal_float_of_str sample_world)
  = Ok (PList [head; arm; leg; eye]) /\
  delete_dimension decimal_float_of_str 1 sample_world
  = (Ok tt, written (PList [head; leg; eye]) sample_world).
Proof.
  split; [reflexivity|].
  apply (delete_dimension_removes decimal_float_of_str 1 sample_world
           [head; arm; leg; eye] eq_refl).
  simpl. lia.
Defined.

Lemma rename_dimension_renames_sample :
  fst (load_dimensions decimal_float_of_str sample_world)
  = Ok (PList [head; arm; leg; eye]) /\
  exists e,
    [head; arm; leg; eye] !! Z.to_nat 1 = Some (PDict e) /\
    rename_dimension decimal_float_of_str 1 (PStr "Wrist") sample_world
    = (Ok tt,
       written (PList (<[Z.to_nat 1 := PDict (dict_set "name" (PStr "Wrist") e)]>
                         [head; arm; leg; eye])) sample_world).
Proof.
  split; [reflexivity|].
  apply (rename_dimension_renames decimal_float_of_str 1 (PStr "Wrist")
           sample_world [head; arm; leg; eye] eq_refl).
  simpl. lia.
Defined.

Lemma update_dimension_group_updates_sample :
  fst (load_dimensions decimal_float_of_str sample_world)
  = Ok (PList [head; arm; leg; eye]) /\
  exists e,
    [head; arm; leg; eye] !! Z.to_nat 1 = Some (PDict e) /\
    update_dimension_group decimal_float_of_str 1 (PStr "G2") sample_world
    = (Ok true,
       written (PList (<[Z.to_nat 1 := PDict (dict_set "group" (PStr "G2") e)]>
                         [head; arm; leg; eye])) sample_world).
Proof.
  split; [reflexivity|].
  apply (update_dimension_group_updates decimal_float_of_str 1 (PStr "G2")
           sample_world [head; arm; leg; eye] eq_refl).
  simpl. lia.
Defined.

Lemma reorder_dimensions_permutes_sample :
  fst (load_dimensions decimal_float_of_str sample_world)
  = Ok (PList [head; arm; leg; eye]) /\
  [2; 0; 1; 3] ≡ₚ map Z.of_nat (seq 0 4) /\
  exists reordered,
    reorder_dimensions decimal_float_of_str [2; 0; 1; 3] sample_world
    = (Ok true, written (PList reordered) sample_world) /\
    reordered ≡ₚ [head; arm; leg; eye].
Proof.
  assert ([2; 0; 1; 3] ≡ₚ map Z.of_nat (seq 0 4)) as Hperm.
  { simpl. rewrite (perm_swap 0 2 [1; 3]). apply perm_skip.
    apply perm_swap. }
  split; [reflexivity|]. split; [exact Hperm|].
  exact (reorder_dimensions_permutes decimal_float_of_str [2; 0; 1; 3]
           sample_world [head; arm; leg; eye] eq_refl Hperm).
Defined.

Lemma reorder_groups_permutes_sample :
  fst (load_dimensions decimal_float_of_str sample_world)
  = Ok (PList [head; arm; leg; eye]) /\
  Forall string_grouped [head; arm; leg; eye] /\
  [1; 0; 2] ≡ₚ map Z.of_nat (seq 0 3) /\
  exists reordered,
    reorder_groups decimal_float_of_str [1; 0; 2] sample_world
    = (Ok true, written (PList reordered) sample_world) /\
    reordered ≡ₚ [head; arm; leg; eye].
Proof.
  assert (Forall string_grouped [head; arm; leg; eye]) as Hg.
  { repeat constructor; eexists; reflexivity. }
  assert ([1; 0; 2] ≡ₚ map Z.of_nat (seq 0 3)) as Hperm.
  { simpl. apply perm_swap. }
  split; [reflexivity|]. split; [exact Hg|]. split; [exact Hperm|].
  apply (reorder_groups_permutes decimal_float_of_str [1; 0; 2] sample_world
           [head; arm; leg; eye] eq_refl Hg); [discriminate|exact Hperm].
Defined.

Lemma save_adds_record_sample :
  let req := Request "POST"
               [("dimension_name", "Knee"); ("value", "3.14159");
                ("group", "new"); ("new_group", " My Group ");
                ("open_groups", "g1")]%string [] in
  fst (load_dimensions decimal_float_of_str sample_world)
  = Ok (PList [head; arm; leg; eye]) /\
  decimal_float_of_str "3.14159" = Some 3.14159%float /\
  save decimal_float_of_str ascii_strip ascii_lower req sample_world
  = (Ok (Redirect "/?open=g1&open=my-group"),
     written (PList [head; arm; leg; eye;
                     PDict [("name", PStr "Knee"); ("value", PFloat 3.14);
                            ("group", PStr "My Group")]%string])
             sample_world).
Proof.
  split; [reflexivity|]. split; [reflexivity|].
  pose proof (save_adds_record decimal_float_of_str ascii_strip ascii_lower
                (Request "POST"
                   [("dimension_name", "Knee"); ("value", "3.14159");
                    ("group", "new"); ("new_group", " My Group ");
                    ("open_groups", "g1")]%string [])
                sample_world [head; arm; leg; eye] "Knee" "3.14159"
                3.14159%float eq_refl eq_refl ltac:(discriminate) eq_refl
                ltac:(discriminate) eq_refl) as H.
  cbv zeta in H. destruct H as (_ & _ & H). destruct (H eq_refl) as [Hnew _].
  apply (Hnew " My Group "%string eq_refl); [discriminate|].
  vm_compute. discriminate.
Defined.

Lemma save_rejects_non_numeric_sample :
  let req := Request "POST"
               [("dimension_name", "Knee"); ("value", "abc");
                ("group", "G1")]%string [] in
  decimal_float_of_str "abc" = None /\
  save decimal_float_of_str ascii_strip ascii_lower req sample_world
  = (Raise ValueError, sample_world).
Proof.
  split; [reflexivity|].
  exact (save_rejects_non_numeric decimal_float_of_str ascii_strip ascii_lower
           (Request "POST"
              [("dimension_name", "Knee"); ("value", "abc");
               ("group", "G1")]%string [])
           sample_world [head; arm; leg; eye] "Knee" "abc"
           eq_refl eq_refl ltac:(discriminate) eq_refl ltac:(discriminate)
           eq_refl).
Defined.

Lemma rename_route_spec_sample :
  let req := Request "POST"
               [("new_name", "Forearm"); ("open_groups", "g1")]%string [] in
  fst (load_dimensions decimal_float_of_str sample_world)
  = Ok (PList [head; arm; leg; eye]) /\
  rename_route decimal_float_of_str 4 req sample_world
  = (Ok (Redirect "/?open=g1"), sample_world) /\
  exists e,
    [head; arm; leg; eye] !! 1%nat = Some (PDict e) /\
    rename_route decimal_float_of_str 1 req sample_world
    = (Ok (Redirect "/?open=g1"),
       written (PList (<[1%nat := PDict (dict_set "name" (PStr "Forearm") e)]>
                         [head; arm; leg; eye])) sample_world).
Proof.
  split; [reflexivity|]. split.
  - pose proof (rename_route_spec decimal_float_of_str 4
                  (Request "POST"
                     [("new_name", "Forearm"); ("open_groups", "g1")]%string [])
                  sample_world [head; arm; leg; eye] eq_refl) as H.
    cbv zeta in H. destruct H as [_ H].
    apply (H "Forearm"%string eq_refl); [discriminate|]. right. simpl. lia.
  - pose proof (rename_route_spec decimal_float_of_str 1
                  (Request "POST"
                     [("new_name", "Forearm"); ("open_groups", "g1")]%string [])
                  sample_world [head; arm; leg; eye] eq_refl) as H.
    cbv zeta in H. destruct H as [_ H].
    apply (H "Forearm"%string eq_refl); [discriminate|]. simpl. lia.
Defined.

Lemma delete_route_spec_sample :
  let req := Request "GET" [] [("open", "default")]%string in
  fst (load_dimensions decimal_float_of_str sample_world)
  = Ok (PList [head; arm; leg; eye]) /\
  delete_route decimal_float_of_str ascii_lower 7 req sample_world
  = (Ok (Redirect "/?open=default"), sample_world) /\
  delete_route decimal_float_of_str ascii_lower 1 req sample_world
  = (Ok (Redirect "/?open=default&open=g1"),
     written (PList [head; leg; eye]) sample_world).
Proof.
  split; [reflexivity|]. split.
  - pose proof (delete_route_spec decimal_float_of_str ascii_lower 7
                  (Request "GET" [] [("open", "default")]%string)
                  sample_world [head; arm; leg; eye] eq_refl) as H.
    cbv zeta in H. destruct H as [H _]. apply H. right. simpl. lia.
  - pose proof (delete_route_spec decimal_float_of_str ascii_lower 1
                  (Request "GET" [] [("open", "default")]%string)
                  sample_world [head; arm; leg; eye] eq_refl) as H.
    cbv zeta in H. destruct H as [_ H].
    apply (H arm "G1"%string); [simpl; lia|reflexivity|reflexivity].
Defined.

Lemma delete_route_fails_late_sample :
  let odd := [("name", PStr "Odd"); ("value", PFloat 1); ("group", PInt 5)]%string in
  let w := World (Some (Document (PList [head; PDict odd]))) 0 in
  fst (load_dimensions decimal_float_of_str w) = Ok (PList [head; PDict odd]) /\
  delete_route decimal_float_of_str ascii_lower 1 (Request "GET" [] []) w
  = (Raise AttributeError, written (PList [head]) w).
Proof.
  split; [reflexivity|].
  apply (delete_route_fails_late decimal_float_of_str ascii_lower 1
           (Request "GET" [] [])
           (World (Some (Document (PList
              [head; PDict [("name", PStr "Odd"); ("value", PFloat 1);
                            ("group", PInt 5)]%string]))) 0)
           [head; PDict [("name", PStr "Odd"); ("value", PFloat 1);
                         ("group", PInt 5)]%string]
           [("name", PStr "Odd"); ("value", PFloat 1); ("group", PInt 5)]%string
           (PInt 5) eq_refl);
    [simpl; lia|reflexivity|reflexivity|discriminate|reflexivity].
Defined.


Lemma markers_added_once_sample :
  let req := Request "POST"
               [("group_name", "My Group"); ("open_groups", "g1");
                ("open_groups", "my-group")]%string [] in
  add_group ascii_lower req sample_world
  = (Ok (Redirect "/?open=g1&open=my-group"), sample_world) /\
  exists markers,
    "/?open=g1&open=my-group"%string = with_open_groups url_index markers /\
    ["g1"; "my-group"]%string `prefix_of` markers /\
    (NoDup ["g1"; "my-group"]%string -> NoDup markers).
Proof.
  split; [reflexivity|].
  apply (markers_added_once decimal_float_of_str ascii_strip ascii_lower 0
           (Request "POST"
              [("group_name", "My Group"); ("open_groups", "g1");
               ("open_groups", "my-group")]%string [])
           sample_world sample_world).
  right. reflexivity.
Defined.

Lemma load_rejects_sample :
  let bare := PDict [("name"%string, PStr "Bare")] in
  let w1 := World (Some (Document (PList [head; bare; arm]))) 0 in
  let w2 := World (Some (Document (PList [head; PInt 3]))) 0 in
  let w3 := World (Some (Document (PInt 3))) 0 in
  Forall normalized [head] /\
  load_dimensions decimal_float_of_str w1 = (Raise KeyError, w1) /\
  load_dimensions decimal_float_of_str w2 = (Raise TypeError, w2) /\
  load_dimensions decimal_float_of_str w3 = (Raise TypeError, w3).
Proof.
  assert (Forall normalized [head]) as H.
  { repeat constructor. eexists _, _. split; [reflexivity|].
    split; [reflexivity|]. simpl. eauto. }
  split; [exact H|]. split; [|split].
  - apply (proj1 (load_rejects decimal_float_of_str 0%nat)
             [head] (PDict [("name"%string, PStr "Bare")]) [arm] H).
    eexists. split; reflexivity.
  - apply (proj1 (load_rejects decimal_float_of_str 0%nat)
             [head] (PInt 3) [] H).
    discriminate.
  - apply (proj2 (load_rejects decimal_float_of_str 0%nat) (PInt 3));
      discriminate.
Defined.

Lemma unhashable_group_breaks_listing_sample :
  let odd := [("name", PStr "Odd"); ("value", PFloat 1);
              ("group", PList [PStr "G1"])]%string in
  let w := World (Some (Document (PList [head; PDict odd]))) 0 in
  fst (load_dimensions decimal_float_of_str w) = Ok (PList [head; PDict odd]) /\
  get_groups decimal_float_of_str w = (Raise TypeError, w) /\
  index decimal_float_of_str (Request "GET" [] []) w = (Raise TypeError, w).
Proof.
  split; [reflexivity|].
  apply (unhashable_group_breaks_listing decimal_float_of_str
           (Request "GET" [] [])
           (World (Some (Document (PList
              [head; PDict [("name", PStr "Odd"); ("value", PFloat 1);
                            ("group", PList [PStr "G1"])]%string]))) 0)
           [head; PDict [("name", PStr "Odd"); ("value", PFloat 1);
                         ("group", PList [PStr "G1"])]%string] eq_refl).
  apply Exists_cons_tl, Exists_cons_hd. eexists _, _.
  split; [reflexivity|]. split; reflexivity.
Defined.

Lemma add_then_delete_last_sample :
  fst (load_dimensions decimal_float_of_str sample_world)
  = Ok (PList [head; arm; leg; eye]) /\
  py_float decimal_float_of_str (PStr "3.14159") = Ok 3.14159%float /\
  exists w1 w2,
    add_dimension decimal_float_of_str (PStr "X") (PStr "3.14159")
      (Some (PStr "G")) sample_world = (Ok tt, w1) /\
    delete_dimension decimal_float_of_str 4 w1 = (Ok tt, w2) /\
    w2 = written (PList [head; arm; leg; eye]) w1 /\
    load_dimensions decimal_float_of_str w2
    = (Ok (PList [head; arm; leg; eye]), w2).
Proof.
  split; [reflexivity|]. split; [reflexivity|].
  exact (add_then_delete_last decimal_float_of_str (PStr "X") (PStr "3.14159")
           (Some (PStr "G")) sample_world [head; arm; leg; eye] 3.14159%float
           eq_refl eq_refl).
Defined.

Lemma reorder_dimensions_undo_sample :
  let w := World (Some (Document (PList [head; arm; leg]))) 0 in
  fst (load_dimensions decimal_float_of_str w) = Ok (PList [head; arm; leg]) /\
  exists w1,
    reorder_dimensions decimal_float_of_str [2; 0; 1] w = (Ok true, w1) /\
    reorder_dimensions decimal_float_of_str [1; 2; 0] w1
    = (Ok true, written (PList [head; arm; leg]) w1).
Proof.
  split; [reflexivity|].
  apply (reorder_dimensions_undo decimal_float_of_str [2; 0; 1] [1; 2; 0]
           (World (Some (Document (PList [head; arm; leg]))) 0)
           [head; arm; leg] eq_refl eq_refl).
  - repeat constructor; simpl; lia.
  - repeat constructor; simpl; lia.
Defined.

Lemma reorder_groups_orders_groups_sample :
  fst (load_dimensions decimal_float_of_str sample_world)
  = Ok (PList [head; arm; leg; eye]) /\
  Forall string_grouped [head; arm; leg; eye] /\
  distinct (map group_of [head; arm; leg; eye]) = ["Default"; "G1"; "G2"]%string /\
  exists reordered,
    reorder_groups decimal_float_of_str [1; 0; 2] sample_world
    = (Ok true, written (PList reordered) sample_world) /\
    Forall2 (fun idx g => ["Default"; "G1"; "G2"]%string !! Z.to_nat idx = Some g)
            [1; 0; 2] (distinct (map group_of reordered)).
Proof.
  assert (Forall string_grouped [head; arm; leg; eye]) as Hg.
  { repeat constructor; eexists; reflexivity. }
  split; [reflexivity|]. split; [exact Hg|]. split; [reflexivity|].
  apply (reorder_groups_orders_groups decimal_float_of_str [1; 0; 2]
           sample_world [head; arm; leg; eye] eq_refl Hg); [discriminate|].
  simpl. apply perm_swap.
Defined.

Lemma reorder_route_spec_sample :
  let w := World (Some (Document (PList [head; arm; leg]))) 0 in
  let body := PDict [("order"%string, PList [PInt 2; PInt 0; PInt 1])] in
  reorder decimal_float_of_str (PDict []) w = (Ok (success_body false), w) /\
  reorder decimal_float_of_str body w
  = (Ok (success_body true), written (PList [leg; head; arm]) w).
Proof.
  split.
  - apply (reorder_route_spec decimal_float_of_str). reflexivity.
  - apply (proj1 (proj2 (proj2 (reorder_route_spec decimal_float_of_str)))
             [("order"%string, PList [PInt 2; PInt 0; PInt 1])] [2; 0; 1]).
    reflexivity.
Defined.

Lemma reorder_groups_route_spec_sample :
  let body := PDict [("order"%string, PList [PInt 1; PInt 0; PInt 2])] in
  reorder_groups_route decimal_float_of_str (PDict []) sample_world
  = (Ok (success_body false), sample_world) /\
  reorder_groups_route decimal_float_of_str body sample_world
  = (Ok (success_body true),
     written (PList [arm; head; leg; eye]) sample_world).
Proof.
  split.
  - apply (reorder_groups_route_spec decimal_float_of_str). reflexivity.
  - apply (proj1 (proj2 (proj2 (reorder_groups_route_spec decimal_float_of_str)))
             [("order"%string, PList [PInt 1; PInt 0; PInt 2])] [1; 0; 2]).
    reflexivity.
Defined.
